(** * set-asus-battery.py: a shallow embedding and its verified properties

    The program is one Tk application class, [Application], with three
    methods that matter: [find_battery_path], [load_current_threshold] and
    [set_new_threshold].  They are embedded here as computations in a small
    state / exception / trace monad; the Python built-ins they rely on
    ([int], [str.strip], [str] of an integer, [subprocess.run] with
    [check=True], exception matching by class) are embedded first.

    Text is modelled as [string]; a character [c : ascii] stands for the
    code point U+0000 .. U+00FF with the same number, so the development
    covers every text over that range. *)

From Stdlib Require Import String Ascii ZArith NArith List Bool Lia DecimalString.
Import ListNotations.
Open Scope string_scope.

(* ===================================================================== *)
(** ** Python strings                                                     *)
(* ===================================================================== *)

Definition ord (c : ascii) : N := N_of_ascii c.

(** The line feed, written [\n] in the source. *)
Definition nl : string := String "010"%char "".

(** [str.isspace] on one character of the range: the code points Python
    lists as whitespace are 9..13, 28..31, 32, 0x85 and 0xA0. *)
Definition Py_UNICODE_ISSPACE (c : ascii) : bool :=
  let n := ord c in
  (((9 <=? n) && (n <=? 13)) || ((28 <=? n) && (n <=? 31)) || (n =? 32)
   || (n =? 133) || (n =? 160))%N.

(** [Py_ISSPACE], the C-locale test used on byte strings: 9..13 and 32. *)
Definition Py_ISSPACE (c : ascii) : bool :=
  let n := ord c in (((9 <=? n) && (n <=? 13)) || (n =? 32))%N.

Fixpoint lstrip (s : string) : string :=
  match s with
  | String c r => if Py_UNICODE_ISSPACE c then lstrip r else s
  | EmptyString => EmptyString
  end.

Fixpoint rstrip (s : string) : string :=
  match s with
  | String c r =>
      match rstrip r with
      | EmptyString => if Py_UNICODE_ISSPACE c then EmptyString else String c EmptyString
      | r' => String c r'
      end
  | EmptyString => EmptyString
  end.

(** [s.strip()] *)
Definition strip (s : string) : string := rstrip (lstrip s).

(** [str(v)] for an integer, which is also what [f"{v}"] renders. *)
Definition str_of_int (v : Z) : string := NilZero.string_of_int (Z.to_int v).

(* ===================================================================== *)
(** ** The built-in [int(text)]                                           *)
(* ===================================================================== *)

(** The digit table of the integer parser: 0..9 for the decimal digits,
    10..35 for the letters, 37 for every other byte. *)
Definition PyLong_DigitValue (c : ascii) : N :=
  let n := ord c in
  (if (48 <=? n) && (n <=? 57) then n - 48
   else if (97 <=? n) && (n <=? 122) then n - 87
   else if (65 <=? n) && (n <=? 90) then n - 55
   else 37)%N.

Definition is_underscore (c : ascii) : bool := (c =? "_")%char.

(** Step one of [int] on a text that is not pure ASCII: every whitespace
    code point becomes a space, code points below 127 are kept, and the
    first other code point is replaced by a question mark, where the
    copy stops.  (There is no decimal digit among U+0080 .. U+00FF.) *)
Fixpoint transform_loop (s : string) : string :=
  match s with
  | EmptyString => EmptyString
  | String c r =>
      if (ord c <? 127)%N then String c (transform_loop r)
      else if Py_UNICODE_ISSPACE c then String " "%char (transform_loop r)
      else "?"
  end.

Fixpoint is_ascii (s : string) : bool :=
  match s with
  | EmptyString => true
  | String c r => (ord c <? 128)%N && is_ascii r
  end.

Definition TransformDecimalAndSpaceToASCII (s : string) : string :=
  if is_ascii s then s else transform_loop s.

Fixpoint skip_space (s : string) : string :=
  match s with
  | String c r => if Py_ISSPACE c then skip_space r else s
  | EmptyString => EmptyString
  end.

(** The validation loop of the parser for base 10.  It walks over digits
    and underscores, refuses two underscores in a row, and counts the
    digits.  The result is the text walked over, the last character seen,
    the digit count and the remaining text; [None] is the syntax error
    raised inside the loop. *)
Fixpoint scan_digits (p : string) (prev : ascii) (digits : nat)
  : option (string * ascii * nat * string) :=
  match p with
  | EmptyString => Some (EmptyString, prev, digits, EmptyString)
  | String c r =>
      if ((PyLong_DigitValue c <? 10)%N || is_underscore c) then
        if is_underscore c then
          if is_underscore prev then None
          else
            match scan_digits r c digits with
            | Some (b, prev', d, rest) => Some (String c b, prev', d, rest)
            | None => None
            end
        else
          match scan_digits r c (S digits) with
          | Some (b, prev', d, rest) => Some (String c b, prev', d, rest)
          | None => None
          end
      else Some (EmptyString, prev, digits, p)
  end.

(** The value of a validated run of digits and underscores, from an
    accumulator: underscores are skipped. *)
Fixpoint digits_value (body : string) (acc : Z) : Z :=
  match body with
  | EmptyString => acc
  | String c r =>
      if is_underscore c then digits_value r acc
      else digits_value r (10 * acc + Z.of_N (PyLong_DigitValue c))%Z
  end.

(** Below this many digits the length limit is never consulted. *)
Definition MAX_STR_DIGITS_THRESHOLD : nat := 640.

(** The interpreter's default for the limit on the digits of a converted
    text; 0 switches the limit off. *)
Definition DEFAULT_MAX_STR_DIGITS : nat := 4300.

Definition NUL : ascii := "000"%char.

Definition starts_with_nul_or_empty (s : string) : bool :=
  match s with
  | EmptyString => true
  | String c _ => (c =? NUL)%char
  end.

(** [long_from_string_base] at base 10: [Some (v, rest)] is success with
    the pointer left at [rest]; [None] is every [ValueError]. *)
Definition long_from_string_base (max_str_digits : nat) (start : string)
  : option (Z * string) :=
  match start with
  | String c _ => if is_underscore c then None else
      match scan_digits start NUL 0 with
      | None => None
      | Some (body, prev, digits, rest) =>
          if is_underscore prev then None
          else if (String.length body =? 0)%nat then None
          else
            let p := skip_space rest in
            if negb (starts_with_nul_or_empty p) then None
            else if (MAX_STR_DIGITS_THRESHOLD <? digits)%nat
                    && (0 <? max_str_digits)%nat
                    && (max_str_digits <? digits)%nat then None
            else Some (digits_value body 0, p)
      end
  | EmptyString => None
  end.

(** [PyLong_FromString] at base 10 on the byte string [str]. *)
Definition PyLong_FromString (max_str_digits : nat) (str : string)
  : option (Z * string) :=
  let str1 := skip_space str in
  let '(sign, str2) :=
    match str1 with
    | String c r =>
        if (c =? "+")%char then (1%Z, r)
        else if (c =? "-")%char then ((-1)%Z, r)
        else (1%Z, str1)
    | EmptyString => (1%Z, str1)
    end in
  match long_from_string_base max_str_digits str2 with
  | Some (z, p) => Some ((sign * z)%Z, p)
  | None => None
  end.

(** [int(text)]: [None] stands for the [ValueError] it raises.  The final
    test is that the parser stopped at the end of the buffer (a text with
    an embedded NUL is refused there). *)
Definition int_ (max_str_digits : nat) (text : string) : option Z :=
  match PyLong_FromString max_str_digits (TransformDecimalAndSpaceToASCII text) with
  | Some (z, EmptyString) => Some z
  | _ => None
  end.

(* ===================================================================== *)
(** ** Exceptions                                                         *)
(* ===================================================================== *)

(** The exception classes the program can meet, with Python's hierarchy. *)
Inductive exc_class : Type :=
  | Exception
  | ValueError
  | UnicodeDecodeError
  | OSError
  | PermissionError
  | FileNotFoundError
  | SubprocessError
  | CalledProcessError
  | RuntimeError.

Definition exc_class_eqb (a b : exc_class) : bool :=
  match a, b with
  | Exception, Exception | ValueError, ValueError
  | UnicodeDecodeError, UnicodeDecodeError | OSError, OSError
  | PermissionError, PermissionError | FileNotFoundError, FileNotFoundError
  | SubprocessError, SubprocessError | CalledProcessError, CalledProcessError
  | RuntimeError, RuntimeError => true
  | _, _ => false
  end.

(** The direct base class; [Exception] is the root of what is modelled. *)
Definition base (c : exc_class) : option exc_class :=
  match c with
  | Exception => None
  | ValueError => Some Exception
  | UnicodeDecodeError => Some ValueError
  | OSError => Some Exception
  | PermissionError => Some OSError
  | FileNotFoundError => Some OSError
  | SubprocessError => Some Exception
  | CalledProcessError => Some SubprocessError
  | RuntimeError => Some Exception
  end.

Fixpoint issubclass_upto (fuel : nat) (c d : exc_class) : bool :=
  exc_class_eqb c d ||
  match fuel, base c with
  | S k, Some b => issubclass_upto k b d
  | _, _ => false
  end.

(** The hierarchy is three levels deep. *)
Definition issubclass (c d : exc_class) : bool := issubclass_upto 3 c d.

(** A raised exception: its class, its [str(e)], and the captured standard
    error of a [CalledProcessError] ([None] on every other class). *)
Record exc : Type := mkExc {
  exc_cls : exc_class;
  exc_str : string;
  exc_stderr : option string
}.

Definition isinstance (e : exc) (classes : list exc_class) : bool :=
  existsb (issubclass (exc_cls e)) classes.

(* ===================================================================== *)
(** ** The world outside the process                                      *)
(* ===================================================================== *)

(** What a finished child process leaves behind. *)
Record CompletedProcess : Type := mkCompleted {
  returncode : Z;
  stdout : string;
  stderr : string
}.

(** The answers of the operating system during one handler.  Each handler
    asks each question at most once, so one record describes what it meets:
    [w_glob] is the list [glob.glob] returns (or what it raises),
    [w_exists] is [os.path.exists], [w_read] is opening a file for reading
    and reading all of it, [w_spawn] is starting a child and waiting for
    it. *)
Record world : Type := mkWorld {
  w_glob : string -> list string + exc;
  w_exists : string -> bool;
  w_read : string -> string + exc;
  w_spawn : list string -> CompletedProcess + exc;
  w_max_str_digits : nat
}.

(* ===================================================================== *)
(** ** Application state, observable events, and the monad                *)
(* ===================================================================== *)

(** The fields of [Application] that the methods read or write:
    [self.battery_path], the text of [self.current_value_label], and the
    text of [self.entry]. *)
Record app : Type := mkApp {
  battery_path : option string;
  current_value_label : string;
  entry : string
}.

(** What the process does that can be seen from outside. *)
Inductive event : Type :=
  | Glob (pattern : string)
  | PathExists (path : string)
  | OpenRead (path : string)
  | SubprocessRun (command : list string)
  | ShowError (title message : string)
  | ShowWarning (title message : string)
  | ShowInfo (title message : string)
  | MasterQuit
  | LabelConfig (text : string)
  | Print (text : string).

Inductive outcome (A : Type) : Type :=
  | Return (a : A)
  | Raise (e : exc).
Arguments Return {A} a.
Arguments Raise {A} e.

(** A computation reads the world, updates the application state, emits
    events in order, and either returns or raises. *)
Definition M (A : Type) : Type := world -> app -> outcome A * app * list event.

Definition ret {A} (a : A) : M A := fun _ st => (Return a, st, []).

Definition bind {A B} (m : M A) (k : A -> M B) : M B :=
  fun w st =>
    match m w st with
    | (Return a, st1, t1) =>
        let '(r, st2, t2) := k a w st1 in (r, st2, (t1 ++ t2)%list)
    | (Raise e, st1, t1) => (Raise e, st1, t1)
    end.

Definition raise {A} (e : exc) : M A := fun _ st => (Raise e, st, []).

(** [try: body  except ...:]; [handlers] is the list of except clauses in
    source order, each with the classes it names; the first clause that
    matches runs, and an exception no clause matches propagates. *)
Fixpoint select_handler {A} (e : exc)
  (handlers : list (list exc_class * (exc -> M A))) : option (M A) :=
  match handlers with
  | [] => None
  | (classes, h) :: rest =>
      if isinstance e classes then Some (h e) else select_handler e rest
  end.

Definition try_except {A} (body : M A)
  (handlers : list (list exc_class * (exc -> M A))) : M A :=
  fun w st =>
    match body w st with
    | (Return a, st1, t1) => (Return a, st1, t1)
    | (Raise e, st1, t1) =>
        match select_handler e handlers with
        | Some h => let '(r, st2, t2) := h w st1 in (r, st2, (t1 ++ t2)%list)
        | None => (Raise e, st1, t1)
        end
    end.

Declare Scope py_scope.
Delimit Scope py_scope with py.
Notation "x <- m ;; k" := (bind m (fun x => k))
  (at level 61, m at next level, right associativity) : py_scope.
Notation "m ;; k" := (bind m (fun _ => k))
  (at level 61, right associativity) : py_scope.
Open Scope py_scope.

Definition emit (e : event) : M unit := fun _ st => (Return tt, st, [e]).

Definition get_app : M app := fun _ st => (Return st, st, []).
Definition get_world : M world := fun w st => (Return w, st, []).
Definition put_app (st : app) : M unit := fun _ _ => (Return tt, st, []).

Definition of_sum {A} (r : A + exc) : M A :=
  match r with
  | inl a => ret a
  | inr e => raise e
  end.

(** *** Library calls *)

Definition glob_glob (pattern : string) : M (list string) :=
  emit (Glob pattern) ;; w <- get_world ;; of_sum (w_glob w pattern).

Definition os_path_exists (path : string) : M bool :=
  emit (PathExists path) ;; w <- get_world ;; ret (w_exists w path).

(** [with open(path, 'r') as f: f.read()] *)
Definition open_read (path : string) : M string :=
  emit (OpenRead path) ;; w <- get_world ;; of_sum (w_read w path).

(** The exception [subprocess.run] raises for a child that failed.  Its
    [str] is abridged here (Python also quotes the command in it); the
    program reads only its captured standard error. *)
Definition called_process_error (cp : CompletedProcess) : exc :=
  mkExc CalledProcessError
    ("Command returned non-zero exit status " ++ str_of_int (returncode cp) ++ ".")
    (Some (stderr cp)).

(** [subprocess.run(command, check=True, capture_output=True, text=True)]:
    an exception from starting the child propagates; a child that ends
    with a non-zero code raises [CalledProcessError] carrying its
    captured output. *)
Definition subprocess_run_check (command : list string) : M CompletedProcess :=
  emit (SubprocessRun command) ;;
  w <- get_world ;;
  cp <- of_sum (w_spawn w command) ;;
  if (returncode cp =? 0)%Z then ret cp
  else raise (called_process_error cp).

Definition messagebox_showerror (title message : string) : M unit :=
  emit (ShowError title message).
Definition messagebox_showwarning (title message : string) : M unit :=
  emit (ShowWarning title message).
Definition messagebox_showinfo (title message : string) : M unit :=
  emit (ShowInfo title message).
Definition master_quit : M unit := emit MasterQuit.
Definition print (text : string) : M unit := emit (Print text).

(** [self.current_value_label.config(text=...)] *)
Definition label_config (text : string) : M unit :=
  emit (LabelConfig text) ;;
  st <- get_app ;;
  put_app (mkApp (battery_path st) text (entry st)).

(** [int(text)] as a computation. *)
Definition py_int (text : string) : M Z :=
  w <- get_world ;;
  match int_ (w_max_str_digits w) text with
  | Some v => ret v
  | None => raise (mkExc ValueError "invalid literal for int() with base 10" None)
  end.

(* ===================================================================== *)
(** ** The program                                                        *)
(* ===================================================================== *)

Definition CHARGE_THRESHOLD_FILE_PATH : string :=
  "/sys/class/power_supply/BAT*/charge_control_end_threshold".

(** [not x] for [x] a string or [None]: true on [None] and on the empty
    string. *)
Definition not_ (x : option string) : bool :=
  match x with
  | None => true
  | Some EmptyString => true
  | Some _ => false
  end.

Definition no_path_message : string :=
  "Could not find the battery charge control file." ++ nl ++
  "Searched for: " ++ CHARGE_THRESHOLD_FILE_PATH ++ nl ++ nl ++
  "This script may not be compatible with your device.".

(** [Application.find_battery_path] *)
Definition find_battery_path : M (option string) :=
  try_except
    (paths <- glob_glob CHARGE_THRESHOLD_FILE_PATH ;;
     match paths with
     | [] =>
         messagebox_showerror "Error" no_path_message ;;
         master_quit ;;
         ret None
     | first :: _ => ret (Some first)
     end)
    [([Exception], fun e =>
        messagebox_showerror "Error"
          ("An error occurred while finding the battery path: " ++ exc_str e) ;;
        master_quit ;;
        ret None)].

(** [Application.load_current_threshold].  The first test is
    [not self.battery_path or not os.path.exists(self.battery_path)], with
    the short circuit of [or]; the [None] branches under a path known to be
    there are never reached. *)
Definition load_current_threshold : M unit :=
  st <- get_app ;;
  missing <- (if not_ (battery_path st) then ret true
              else
                match battery_path st with
                | Some p => ex <- os_path_exists p ;; ret (negb ex)
                | None => ret true
                end) ;;
  if (missing : bool) then label_config "Current value: Not Found"
  else
    match battery_path st with
    | None => ret tt
    | Some p =>
        try_except
          (content <- open_read p ;;
           let current_value := strip content in
           label_config ("Current value: " ++ current_value ++ "%"))
          [([OSError; PermissionError], fun e =>
              label_config "Current value: Read Error" ;;
              print ("Error reading threshold value: " ++ exc_str e));
           ([Exception], fun e =>
              label_config "Current value: Unknown Error" ;;
              print ("An unexpected error occurred: " ++ exc_str e))]
    end.

Definition command_for (val_int : Z) (path : string) : list string :=
  ["pkexec"; "/bin/bash"; "-c";
   "echo " ++ str_of_int val_int ++ " > " ++ path].

Definition rejected_message (error_message : string) : string :=
  "Failed to set the new threshold." ++ nl ++ nl ++
  "Reason: " ++ error_message ++ nl ++ nl ++
  "Please ensure you have administrative privileges and entered the correct password.".

Definition pkexec_missing_message : string :=
  "The 'pkexec' command was not found." ++ nl ++
  "Please ensure Polkit is installed on your system.".

(** The first [try] of [set_new_threshold]: [Some val_int] when control
    falls out of the [try]; [None] when the [except] clause has shown the
    warning and returned from the method. *)
Definition validate_entry (new_value : string) : M (option Z) :=
  try_except
    (val_int <- py_int new_value ;;
     if negb ((20 <=? val_int)%Z && (val_int <=? 100)%Z)
     then raise (mkExc ValueError "" None)
     else ret (Some val_int))
    [([ValueError], fun _ =>
        messagebox_showwarning "Invalid Input"
          "Please enter a whole number between 20 and 100." ;;
        ret None)].

(** [e.stderr.strip() if e.stderr else "The command was rejected or failed."] *)
Definition error_message_of (e : exc) : string :=
  match exc_stderr e with
  | None | Some EmptyString => "The command was rejected or failed."
  | Some s => strip s
  end.

(** [Application.set_new_threshold] *)
Definition set_new_threshold : M unit :=
  st <- get_app ;;
  let new_value := entry st in
  validated <- validate_entry new_value ;;
  match validated with
  | None => ret tt
  | Some val_int =>
      if not_ (battery_path st) then
        messagebox_showerror "Error"
          "Cannot set threshold because battery path is not defined."
      else
        match battery_path st with
        | None => ret tt
        | Some path =>
            let command := command_for val_int path in
            try_except
              (subprocess_run_check command ;;
               messagebox_showinfo "Success"
                 ("Battery charge threshold successfully set to "
                    ++ str_of_int val_int ++ "%.") ;;
               load_current_threshold)
              [([CalledProcessError], fun e =>
                  messagebox_showerror "Execution Failed"
                    (rejected_message (error_message_of e)));
               ([FileNotFoundError], fun _ =>
                  messagebox_showerror "Error" pkexec_missing_message);
               ([Exception], fun e =>
                  messagebox_showerror "An Unexpected Error Occurred"
                    ("Details: " ++ exc_str e))]
        end
  end.

(** [Application.create_widgets], as far as the state goes: the label
    starts with its loading text and the entry starts empty. *)
Definition create_widgets : M unit :=
  st <- get_app ;;
  put_app (mkApp (battery_path st) "Current value: Loading..." "").

(** [Application.__init__] *)
Definition Application_init : M unit :=
  p <- find_battery_path ;;
  st <- get_app ;;
  put_app (mkApp p (current_value_label st) (entry st)) ;;
  create_widgets ;;
  load_current_threshold.

(** The state before the constructor has run. *)
Definition blank : app := mkApp None "" "".

(** One press of the button: the user has left [text] in the entry and the
    operating system answers as [w] does while the handler runs. *)
Definition click (text : string) : M unit :=
  st <- get_app ;;
  put_app (mkApp (battery_path st) (current_value_label st) text) ;;
  set_new_threshold.

(** The presses the main loop dispatches, one after the other.  An
    exception leaving a handler would be reported by the toolkit and the
    loop would go on; the trace marks none of that, since no handler lets
    one out. *)
Fixpoint dispatch (clicks : list (string * world)) (st : app) : app * list event :=
  match clicks with
  | [] => (st, [])
  | (text, w) :: rest =>
      let '(_, st1, t1) := click text w st in
      let '(st2, t2) := dispatch rest st1 in
      (st2, (t1 ++ t2)%list)
  end.

(** Projections of a run. *)
Definition result_of {A} (r : outcome A * app * list event) : outcome A := fst (fst r).
Definition state_of {A} (r : outcome A * app * list event) : app := snd (fst r).
Definition trace_of {A} (r : outcome A * app * list event) : list event := snd r.

Definition is_subprocess (e : event) : bool :=
  match e with SubprocessRun _ => true | _ => false end.

Definition is_file_access (e : event) : bool :=
  match e with OpenRead _ | PathExists _ => true | _ => false end.

Definition is_notification (e : event) : bool :=
  match e with ShowError _ _ | ShowWarning _ _ | ShowInfo _ _ => true | _ => false end.

Definition returns {A} (r : outcome A * app * list event) : bool :=
  match result_of r with Return _ => true | Raise _ => false end.

(* ===================================================================== *)
(** ** What the specification says a valid entry is                       *)
(* ===================================================================== *)

Definition is_digit (c : ascii) : bool := ((48 <=? ord c) && (ord c <=? 57))%N.

Fixpoint all_chars (P : ascii -> bool) (s : string) : bool :=
  match s with
  | EmptyString => true
  | String c r => P c && all_chars P r
  end.

(** The value of a run of decimal digits, most significant first. *)
Fixpoint decimal (ds : string) (acc : Z) : Z :=
  match ds with
  | EmptyString => acc
  | String d r => decimal r (10 * acc + (Z.of_N (ord d) - 48))%Z
  end.

(** The pattern [^-?\d+$] of the specification: an optional minus sign and
    then one or more decimal digits, nothing else. *)
Definition matches_spec_pattern (s : string) : bool :=
  let ds := match s with
            | String c r => if (c =? "-")%char then r else s
            | EmptyString => s
            end in
  negb (String.length ds =? 0)%nat && all_chars is_digit ds.

(** The integer such a text denotes. *)
Definition spec_value (s : string) : Z :=
  match s with
  | String c r => if (c =? "-")%char then (- decimal r 0)%Z else decimal s 0
  | EmptyString => 0%Z
  end.

(** Validation as the specification words it. *)
Definition spec_validate (s : string) : option Z :=
  if matches_spec_pattern s
  then let v := spec_value s in
       if ((20 <=? v) && (v <=? 100))%Z then Some v else None
  else None.

(** ** What the code accepts, declaratively *)

(** Whitespace as [int] sees it: tab, line feed, vertical tab, form feed,
    carriage return, space, U+0085 and U+00A0. *)
Definition is_int_space (c : ascii) : bool :=
  (Py_ISSPACE c || (ord c =? 133) || (ord c =? 160))%N.

(** One or more decimal digits, where a single underscore may stand
    between two digits. *)
Inductive digit_groups : string -> Prop :=
  | dg_one d : is_digit d = true -> digit_groups (String d EmptyString)
  | dg_next d b : is_digit d = true -> digit_groups b -> digit_groups (String d b)
  | dg_sep d b : is_digit d = true -> digit_groups b ->
                 digit_groups (String d (String "_"%char b)).

(** The digits of a text, its underscores dropped. *)
Fixpoint drop_underscores (b : string) : string :=
  match b with
  | EmptyString => EmptyString
  | String c r => if is_underscore c then drop_underscores r
                  else String c (drop_underscores r)
  end.

(** The limit on the number of digits: none when it is switched off, and
    never below the threshold. *)
Definition within_digit_limit (max_str_digits n : nat) : Prop :=
  max_str_digits = 0%nat \/ (n <= max_str_digits)%nat \/ (n <= MAX_STR_DIGITS_THRESHOLD)%nat.

Inductive sign_text : string -> Z -> Prop :=
  | sign_none : sign_text "" 1
  | sign_plus : sign_text "+" 1
  | sign_minus : sign_text "-" (-1).

(** [literal_with space m s v]: [s] is whitespace, an optional sign, digit
    groups, whitespace; [v] is the signed value of the digits. *)
Definition literal_with (space : ascii -> bool) (max_str_digits : nat)
  (s : string) (v : Z) : Prop :=
  exists ws1 sg sgn b ws2,
    s = ws1 ++ sg ++ b ++ ws2 /\
    all_chars space ws1 = true /\
    all_chars space ws2 = true /\
    sign_text sg sgn /\
    digit_groups b /\
    within_digit_limit max_str_digits (String.length (drop_underscores b)) /\
    v = (sgn * decimal (drop_underscores b) 0)%Z.

Definition int_literal : nat -> string -> Z -> Prop := literal_with is_int_space.

(** An entry the code lets through to the write. *)
Definition valid_entry (max_str_digits : nat) (s : string) (v : Z) : Prop :=
  int_literal max_str_digits s v /\ (20 <= v <= 100)%Z.

Definition warning_shown : list event :=
  [ShowWarning "Invalid Input" "Please enter a whole number between 20 and 100."].

Definition no_path_error_shown : list event :=
  [ShowError "Error" "Cannot set threshold because battery path is not defined."].

(** The state with [text] left in the entry. *)
Definition with_entry (text : string) (st : app) : app :=
  mkApp (battery_path st) (current_value_label st) text.

(* ===================================================================== *)
(** ** Definitions used to state and prove the properties                 *)
(* ===================================================================== *)

Definition is_core (c : ascii) : bool :=
  is_digit c || is_underscore c || (c =? "+")%char || (c =? "-")%char.

(** The character-wise view of [transform_loop] where it does not stop. *)
Definition tr1 (c : ascii) : ascii := if (ord c <? 127)%N then c else " "%char.

Definition transformable (c : ascii) : bool :=
  ((ord c <? 127) || (ord c =? 133) || (ord c =? 160))%N.

Fixpoint smap (f : ascii -> ascii) (s : string) : string :=
  match s with
  | EmptyString => EmptyString
  | String c r => String (f c) (smap f r)
  end.

(** Where the validation loop stops: at the end of the text or at a
    character that is neither a digit nor an underscore. *)
Definition scan_stops (rest : string) : bool :=
  match rest with
  | EmptyString => true
  | String c _ => negb (is_digit c || is_underscore c)
  end.

(** The parser, asked to consume the whole byte string. *)
Definition parse_all (m : nat) (t : string) : option Z :=
  match PyLong_FromString m t with
  | Some (z, EmptyString) => Some z
  | _ => None
  end.

(** A character of a literal: whitespace for the parser, a sign, a digit or
    an underscore. *)
Definition is_literal_char (c : ascii) : bool := Py_ISSPACE c || is_core c.

Definition set_label (text : string) (st : app) : app :=
  mkApp (battery_path st) text (entry st).

Definition in_range (v : Z) : bool := ((20 <=? v) && (v <=? 100))%Z.

(** What [load_current_threshold] leaves in the label. *)
Definition expected_label (w : world) (st : app) : string :=
  match battery_path st with
  | Some (String a b) =>
      let p := String a b in
      if w_exists w p then
        match w_read w p with
        | inl content => "Current value: " ++ strip content ++ "%"
        | inr e => if isinstance e [OSError; PermissionError]
                   then "Current value: Read Error"
                   else "Current value: Unknown Error"
        end
      else "Current value: Not Found"
  | _ => "Current value: Not Found"
  end.

(** What it does on the way. *)
Definition expected_read_trace (w : world) (st : app) : list event :=
  match battery_path st with
  | Some (String a b) =>
      let p := String a b in
      if w_exists w p then
        match w_read w p with
        | inl content =>
            [PathExists p; OpenRead p;
             LabelConfig ("Current value: " ++ strip content ++ "%")]
        | inr e =>
            if isinstance e [OSError; PermissionError]
            then [PathExists p; OpenRead p; LabelConfig "Current value: Read Error";
                  Print ("Error reading threshold value: " ++ exc_str e)]
            else [PathExists p; OpenRead p; LabelConfig "Current value: Unknown Error";
                  Print ("An unexpected error occurred: " ++ exc_str e)]
        end
      else [PathExists p; LabelConfig "Current value: Not Found"]
  | _ => [LabelConfig "Current value: Not Found"]
  end.

Definition success_message (v : Z) : string :=
  "Battery charge threshold successfully set to " ++ str_of_int v ++ "%.".

(** The [except] clauses of the second [try], applied to [e]. *)
Definition write_failure_dialog (e : exc) : event :=
  if isinstance e [CalledProcessError]
  then ShowError "Execution Failed" (rejected_message (error_message_of e))
  else if isinstance e [FileNotFoundError]
  then ShowError "Error" pkexec_missing_message
  else ShowError "An Unexpected Error Occurred" ("Details: " ++ exc_str e).

(** State and trace of the method from the point where the command is
    built. *)
Definition after_validation (w : world) (st : app) (v : Z) (p : string)
  : app * list event :=
  let command := command_for v p in
  match w_spawn w command with
  | inl cp =>
      if (returncode cp =? 0)%Z
      then (set_label (expected_label w st) st,
            SubprocessRun command :: ShowInfo "Success" (success_message v)
              :: expected_read_trace w st)
      else (st, [SubprocessRun command; write_failure_dialog (called_process_error cp)])
  | inr e => (st, [SubprocessRun command; write_failure_dialog e])
  end.

(** The state in which the constructor calls [load_current_threshold]. *)
Definition created (p : option string) : app := mkApp p "Current value: Loading..." "".

Definition BAT0 : string := "/sys/class/power_supply/BAT0/charge_control_end_threshold".
Definition BAT1 : string := "/sys/class/power_supply/BAT1/charge_control_end_threshold".

(** A world in which the glob yields [paths], every path exists, reading
    gives [file] and the child process ends as [child] says. *)
Definition world_with (paths : list string) (file : string + exc)
  (child : CompletedProcess + exc) : world :=
  mkWorld (fun _ => inl paths) (fun _ => true) (fun _ => file) (fun _ => child)
          DEFAULT_MAX_STR_DIGITS.

Definition done : CompletedProcess + exc := inl (mkCompleted 0 "" "").

(** The application once it has found [BAT0] and shown 60. *)
Definition ready : app := mkApp (Some BAT0) "Current value: 60%" "".

(** The specification's rule for one text: validation lets the text
    through exactly when it matches the pattern and its value is in
    range. *)
Definition pattern_claim (w : world) (st : app) (s : string) : Prop :=
  (exists v, validate_entry s w st = (Return (Some v), st, []))
  <-> (exists v, spec_validate s = Some v).

(** The last character of the text [String c r]. *)
Fixpoint last_char (c : ascii) (r : string) : ascii :=
  match r with
  | EmptyString => c
  | String c' r' => last_char c' r'
  end.

(** A text with no whitespace at its first and at its last place; the
    empty text is one. *)
Definition trimmed (value : string) : bool :=
  match value with
  | EmptyString => true
  | String c r => negb (Py_UNICODE_ISSPACE c) && negb (Py_UNICODE_ISSPACE (last_char c r))
  end.



(** A world in which the glob itself raises [e]. *)
Definition world_glob_raising (e : exc) : world :=
  mkWorld (fun _ => inr e) (fun _ => true) (fun _ => inl "60") (fun _ => done)
          DEFAULT_MAX_STR_DIGITS.

(** A world in which the control file is not there any more: the glob
    yields [paths] but no path exists. *)
Definition world_without_file (paths : list string) : world :=
  mkWorld (fun _ => inl paths) (fun _ => false) (fun _ => inl "60") (fun _ => done)
          DEFAULT_MAX_STR_DIGITS.

(** pkexec is there but may not be executed. *)
Definition pkexec_not_executable : CompletedProcess + exc :=
  inr (mkExc PermissionError "[Errno 13] Permission denied: 'pkexec'" None).

(** The number of dialogs in a trace. *)
Definition dialogs (t : list event) : nat := length (filter is_notification t).

Definition is_label_config (e : event) : bool :=
  match e with LabelConfig _ => true | _ => false end.

(* ===================================================================== *)
(** * Properties                                                          *)
(* ===================================================================== *)

(** ** Characters *)

(** A fact about every one of the 256 characters, settled by running
    through them. *)
Ltac each_char c :=
  destruct c as [[] [] [] [] [] [] [] []]; vm_compute;
  intros; try reflexivity; try discriminate; try congruence; auto.

Lemma digit_table c : (PyLong_DigitValue c <? 10)%N = is_digit c.
Proof. each_char c. Qed.

Lemma digit_table_value c :
  is_digit c = true -> Z.of_N (PyLong_DigitValue c) = (Z.of_N (ord c) - 48)%Z.
Proof. each_char c. Qed.

Lemma digit_not_underscore c : is_digit c = true -> is_underscore c = false.
Proof. each_char c. Qed.

Lemma digit_not_space c : is_digit c = true -> Py_ISSPACE c = false.
Proof. each_char c. Qed.

Lemma digit_not_sign c :
  is_digit c = true -> (c =? "+")%char = false /\ (c =? "-")%char = false.
Proof. each_char c. Qed.

Lemma space_stops c :
  Py_ISSPACE c = true -> is_digit c = false /\ is_underscore c = false.
Proof. each_char c. Qed.

Lemma nul_stops : is_digit NUL = false /\ is_underscore NUL = false /\ Py_ISSPACE NUL = false.
Proof. repeat split. Qed.

Lemma space_is_int_space c : Py_ISSPACE c = true -> is_int_space c = true.
Proof. each_char c. Qed.

Lemma int_space_ascii c :
  is_int_space c = true -> (ord c <? 128)%N = true -> Py_ISSPACE c = true.
Proof. each_char c. Qed.

Lemma int_space_transformable c : is_int_space c = true -> transformable c = true.
Proof. each_char c. Qed.

Lemma int_space_tr1 c : is_int_space c = true -> Py_ISSPACE (tr1 c) = true.
Proof. each_char c. Qed.

Lemma tr1_space c :
  transformable c = true -> Py_ISSPACE (tr1 c) = true -> is_int_space c = true.
Proof. each_char c. Qed.

Lemma core_transformable c : is_core c = true -> transformable c = true.
Proof. each_char c. Qed.

Lemma core_tr1 c : is_core c = true -> tr1 c = c.
Proof. each_char c. Qed.

Lemma tr1_core c : is_core (tr1 c) = true -> tr1 c = c.
Proof. each_char c. Qed.

Lemma core_below_127 c : is_core c = true -> (ord c <? 127)%N = true.
Proof. each_char c. Qed.

Lemma space_below_127 c : Py_ISSPACE c = true -> (ord c <? 127)%N = true.
Proof. each_char c. Qed.

Lemma transformable_step c :
  transformable c = true ->
  (ord c <? 127)%N = false -> Py_UNICODE_ISSPACE c = true.
Proof. each_char c. Qed.

Lemma transform_step_inv c :
  (ord c <? 127)%N = false -> Py_UNICODE_ISSPACE c = true -> transformable c = true.
Proof. each_char c. Qed.

Lemma transformable_ascii c :
  transformable c = true -> (ord c <? 128)%N = true -> (ord c <? 127)%N = true.
Proof. each_char c. Qed.

Lemma below_127_transformable c : (ord c <? 127)%N = true -> transformable c = true.
Proof. each_char c. Qed.

Lemma question_mark_no_literal :
  Py_ISSPACE "?"%char = false /\ is_core "?"%char = false.
Proof. split; reflexivity. Qed.

(** ** Strings *)

Lemma app_empty_r (s : string) : s ++ "" = s.
Proof. induction s; simpl; congruence. Qed.

Lemma app_assoc_s (a b c : string) : (a ++ b) ++ c = a ++ b ++ c.
Proof. induction a; simpl; congruence. Qed.

Lemma all_chars_app P a b :
  all_chars P (a ++ b) = all_chars P a && all_chars P b.
Proof. induction a; simpl; [reflexivity | rewrite IHa, andb_assoc; reflexivity]. Qed.

Lemma all_chars_impl (P Q : ascii -> bool) s :
  (forall c, P c = true -> Q c = true) ->
  all_chars P s = true -> all_chars Q s = true.
Proof.
  intros HPQ; induction s as [|c r IH]; simpl; [reflexivity|].
  intros H; apply andb_true_iff in H as [Hc Hr].
  rewrite (HPQ _ Hc), (IH Hr); reflexivity.
Qed.

Lemma length_app_s (a b : string) :
  String.length (a ++ b) = (String.length a + String.length b)%nat.
Proof. induction a; simpl; congruence. Qed.

Lemma smap_app f a b : smap f (a ++ b) = smap f a ++ smap f b.
Proof. induction a; simpl; congruence. Qed.

Lemma smap_split f s a b :
  smap f s = a ++ b ->
  exists sa sb, s = sa ++ sb /\ smap f sa = a /\ smap f sb = b.
Proof.
  revert s; induction a as [|x a IH]; intros s H.
  - exists "", s; auto.
  - destruct s as [|c r]; simpl in H; [discriminate|].
    injection H as Hx Hr. destruct (IH _ Hr) as (sa & sb & -> & Ha & Hb).
    exists (String c sa), sb; simpl; rewrite Ha, Hx; auto.
Qed.

Lemma is_ascii_all s : is_ascii s = all_chars (fun c => (ord c <? 128)%N) s.
Proof. induction s; simpl; congruence. Qed.

(** ** The integer parser *)

Lemma skip_space_split s :
  exists ws, s = ws ++ skip_space s /\ all_chars Py_ISSPACE ws = true.
Proof.
  induction s as [|c r (ws & Hr & Hws)]; [exists ""; auto|].
  simpl. destruct (Py_ISSPACE c) eqn:Hc.
  - exists (String c ws); simpl. rewrite Hc, Hws, <- Hr; auto.
  - exists ""; auto.
Qed.

Lemma skip_space_app ws r :
  all_chars Py_ISSPACE ws = true -> skip_space (ws ++ r) = skip_space r.
Proof.
  induction ws as [|c ws IH]; simpl; [reflexivity|].
  intros H; apply andb_true_iff in H as [Hc Hws]. rewrite Hc; auto.
Qed.

Lemma skip_space_all ws : all_chars Py_ISSPACE ws = true -> skip_space ws = "".
Proof.
  intros H. rewrite <- (app_empty_r ws), skip_space_app by assumption. reflexivity.
Qed.

Lemma skip_space_empty_inv s : skip_space s = "" -> all_chars Py_ISSPACE s = true.
Proof.
  intros H. destruct (skip_space_split s) as (ws & Hs & Hws).
  rewrite H, app_empty_r in Hs. congruence.
Qed.

Lemma skip_space_head c r : Py_ISSPACE c = false -> skip_space (String c r) = String c r.
Proof. intros H; simpl; rewrite H; reflexivity. Qed.

Lemma digit_groups_head b :
  digit_groups b -> exists d r, b = String d r /\ is_digit d = true.
Proof. destruct 1; eauto. Qed.

Lemma digit_groups_core b : digit_groups b -> all_chars is_core b = true.
Proof.
  unfold is_core.
  induction 1 as [d Hd | d b Hd _ IH | d b Hd _ IH]; simpl; rewrite Hd; simpl; auto.
Qed.

Lemma digit_groups_length b : digit_groups b -> (String.length b =? 0)%nat = false.
Proof. intros H; destruct (digit_groups_head b H) as (d & r & -> & _); reflexivity. Qed.

Lemma scan_at_stop rest prev n :
  scan_stops rest = true -> scan_digits rest prev n = Some ("", prev, n, rest).
Proof.
  destruct rest as [|c r]; simpl; [reflexivity|].
  rewrite digit_table. intros H; apply negb_true_iff in H. rewrite H. reflexivity.
Qed.

Ltac same_count :=
  match goal with
  | |- Some (_, _, ?x, _) = Some (_, _, ?y, _) =>
      replace y with x by (simpl; lia); reflexivity
  end.

(** The loop walks over exactly a run of digit groups, counting its
    digits, and leaves a digit as the last character seen. *)
Lemma scan_digit_groups b rest :
  digit_groups b -> scan_stops rest = true ->
  forall prev n, exists prev',
    is_underscore prev' = false /\
    scan_digits (b ++ rest) prev n
    = Some (b, prev', (n + String.length (drop_underscores b))%nat, rest).
Proof.
  intros Hb Hrest.
  induction Hb as [d Hd | d b Hd Hb IH | d b Hd Hb IH]; intros prev n.
  - exists d. split; [apply digit_not_underscore; assumption|].
    cbn [append scan_digits drop_underscores String.length].
    rewrite digit_table, Hd, (digit_not_underscore d Hd). cbn [orb].
    rewrite scan_at_stop by assumption. same_count.
  - destruct (IH d (S n)) as (prev' & Hp & Hscan). exists prev'. split; [assumption|].
    cbn [append scan_digits drop_underscores String.length].
    rewrite digit_table, Hd, (digit_not_underscore d Hd). cbn [orb].
    rewrite Hscan. same_count.
  - destruct (IH "_"%char (S n)) as (prev' & Hp & Hscan). exists prev'. split; [assumption|].
    cbn [append scan_digits].
    rewrite digit_table, Hd, (digit_not_underscore d Hd). cbn [orb].
    change (is_underscore "_") with true.
    replace (PyLong_DigitValue "_" <? 10)%N with false by reflexivity. cbn [orb].
    rewrite Hscan.
    cbn [drop_underscores String.length]. rewrite (digit_not_underscore d Hd).
    change (is_underscore "_") with true. cbn iota. same_count.
Qed.

Lemma is_underscore_eq c : is_underscore c = true -> c = "_"%char.
Proof. unfold is_underscore. intros H; apply Ascii.eqb_eq in H; assumption. Qed.

(** Conversely, whatever the loop walked over, when it ended on something
    other than an underscore, is either nothing or a run of digit groups,
    possibly after one underscore that the caller has to rule out. *)
Lemma scan_digits_inv p :
  forall prev n b prev' n' rest,
    scan_digits p prev n = Some (b, prev', n', rest) ->
    is_underscore prev' = false ->
    p = b ++ rest /\ scan_stops rest = true /\
    ((b = "" /\ prev' = prev /\ n' = n)
     \/ (digit_groups b /\ n' = (n + String.length (drop_underscores b))%nat)
     \/ (exists b', b = String "_"%char b' /\ digit_groups b' /\
                    is_underscore prev = false /\
                    n' = (n + String.length (drop_underscores b'))%nat)).
Proof.
  induction p as [|c r IH]; intros prev n b prev' n' rest Hscan Hp.
  - simpl in Hscan. injection Hscan as <- <- <- <-. repeat split; auto.
  - cbn [scan_digits] in Hscan. rewrite digit_table in Hscan.
    destruct (is_digit c) eqn:Hd; cbn [orb] in Hscan.
    + rewrite (digit_not_underscore c Hd) in Hscan.
      destruct (scan_digits r c (S n)) as [[[[b1 p1] d1] r1]|] eqn:Hr; [|discriminate].
      injection Hscan as <- <- <- <-.
      destruct (IH _ _ _ _ _ _ Hr Hp) as (-> & Hstop & Hcases).
      split; [reflexivity|]. split; [assumption|]. right; left.
      destruct Hcases as [(-> & _ & ->) | [(Hb & ->) | (b' & -> & Hb & _ & ->)]].
      * split; [constructor; assumption|].
        cbn. rewrite (digit_not_underscore c Hd). simpl. lia.
      * split; [apply dg_next; assumption|].
        cbn [drop_underscores]. rewrite (digit_not_underscore c Hd). simpl. lia.
      * split; [apply dg_sep; assumption|].
        cbn [drop_underscores]. rewrite (digit_not_underscore c Hd).
        change (is_underscore "_") with true. simpl. lia.
    + destruct (is_underscore c) eqn:Hu.
      * destruct (is_underscore prev) eqn:Hprev; [discriminate|].
        destruct (scan_digits r c n) as [[[[b1 p1] d1] r1]|] eqn:Hr; [|discriminate].
        injection Hscan as <- <- <- <-.
        destruct (IH _ _ _ _ _ _ Hr Hp) as (-> & Hstop & Hcases).
        split; [reflexivity|]. split; [assumption|]. right; right.
        destruct Hcases as [(-> & -> & ->) | [(Hb & ->) | (b' & -> & Hb & Hc & ->)]].
        -- congruence.
        -- exists b1. rewrite (is_underscore_eq c Hu). auto.
        -- congruence.
      * injection Hscan as <- <- <- <-.
        split; [reflexivity|]. split; [simpl; rewrite Hd, Hu; reflexivity|]. left; auto.
Qed.

Lemma digits_value_decimal b :
  digit_groups b -> forall acc, digits_value b acc = decimal (drop_underscores b) acc.
Proof.
  induction 1 as [d Hd | d b Hd _ IH | d b Hd _ IH]; intros acc;
    cbn [digits_value drop_underscores decimal];
    rewrite (digit_not_underscore d Hd); cbn [decimal];
    rewrite (digit_table_value d Hd).
  - reflexivity.
  - apply IH.
  - change (is_underscore "_") with true. cbn iota. apply IH.
Qed.

Lemma within_digit_limit_test m n :
  ((MAX_STR_DIGITS_THRESHOLD <? n)%nat && (0 <? m)%nat && (m <? n)%nat) = false
  <-> within_digit_limit m n.
Proof.
  unfold within_digit_limit.
  destruct (Nat.ltb_spec MAX_STR_DIGITS_THRESHOLD n);
    destruct (Nat.ltb_spec 0 m); destruct (Nat.ltb_spec m n); simpl;
    split; intros; try reflexivity; try discriminate; try lia; exfalso; lia.
Qed.

Lemma spaces_stop ws : all_chars Py_ISSPACE ws = true -> scan_stops ws = true.
Proof.
  destruct ws as [|c r]; simpl; [reflexivity|].
  intros H; apply andb_true_iff in H as [Hc _].
  destruct (space_stops c Hc) as [-> ->]. reflexivity.
Qed.

Lemma long_from_string_base_complete m b ws :
  digit_groups b -> all_chars Py_ISSPACE ws = true ->
  within_digit_limit m (String.length (drop_underscores b)) ->
  long_from_string_base m (b ++ ws) = Some (decimal (drop_underscores b) 0, "").
Proof.
  intros Hb Hws Hlim.
  destruct (scan_digit_groups b ws Hb (spaces_stop ws Hws) NUL 0) as (prev' & Hp & Hscan).
  destruct (digit_groups_head b Hb) as (d & r & Hbd & Hd).
  unfold long_from_string_base. rewrite Hscan.
  rewrite Hbd at 1. cbn [append]. rewrite (digit_not_underscore d Hd), Hp.
  rewrite (digit_groups_length b Hb), (skip_space_all ws Hws).
  cbn [starts_with_nul_or_empty negb Nat.add].
  apply within_digit_limit_test in Hlim. rewrite Hlim.
  rewrite (digits_value_decimal b Hb). reflexivity.
Qed.

Lemma long_from_string_base_sound m start z p :
  long_from_string_base m start = Some (z, p) ->
  exists b rest,
    start = b ++ rest /\ digit_groups b /\ p = skip_space rest /\
    within_digit_limit m (String.length (drop_underscores b)) /\
    z = decimal (drop_underscores b) 0.
Proof.
  unfold long_from_string_base. destruct start as [|c r]; [discriminate|].
  destruct (is_underscore c) eqn:Hc; [discriminate|].
  destruct (scan_digits (String c r) NUL 0) as [[[[body prev] digits] rest]|] eqn:Hscan;
    [|discriminate].
  destruct (is_underscore prev) eqn:Hprev; [discriminate|].
  destruct (String.length body =? 0)%nat eqn:Hlen; [discriminate|].
  destruct (negb (starts_with_nul_or_empty (skip_space rest))); [discriminate|].
  destruct ((MAX_STR_DIGITS_THRESHOLD <? digits)%nat && (0 <? m)%nat && (m <? digits)%nat)
    eqn:Hlim; [discriminate|].
  intros H; injection H as <- <-.
  destruct (scan_digits_inv _ _ _ _ _ _ _ Hscan Hprev) as (Hstart & _ & Hcases).
  destruct Hcases as [(-> & _) | [(Hb & ->) | (b' & -> & _)]].
  - discriminate.
  - exists body, rest. apply within_digit_limit_test in Hlim.
    rewrite (digits_value_decimal body Hb). auto.
  - simpl in Hstart. injection Hstart as -> _. discriminate.
Qed.

Lemma parse_all_complete m t v :
  literal_with Py_ISSPACE m t v -> parse_all m t = Some v.
Proof.
  intros (ws1 & sg & sgn & b & ws2 & -> & Hws1 & Hws2 & Hsg & Hb & Hlim & ->).
  unfold parse_all, PyLong_FromString.
  rewrite (skip_space_app ws1 _ Hws1).
  destruct (digit_groups_head b Hb) as (d & r & Hbd & Hd).
  pose proof (long_from_string_base_complete m b ws2 Hb Hws2 Hlim) as Hparse.
  destruct Hsg; cbn [append].
  - assert (Hhead : b ++ ws2 = String d (r ++ ws2)) by (rewrite Hbd; reflexivity).
    rewrite Hhead in *. rewrite (skip_space_head d _ (digit_not_space d Hd)).
    destruct (digit_not_sign d Hd) as [-> ->]. rewrite Hparse. reflexivity.
  - rewrite skip_space_head by reflexivity.
    change ("+" =? "+")%char with true. cbn iota. rewrite Hparse. reflexivity.
  - rewrite skip_space_head by reflexivity.
    change ("-" =? "+")%char with false. change ("-" =? "-")%char with true.
    cbn iota. rewrite Hparse. reflexivity.
Qed.

Lemma parse_all_sound m t v :
  parse_all m t = Some v -> literal_with Py_ISSPACE m t v.
Proof.
  unfold parse_all, PyLong_FromString.
  destruct (skip_space_split t) as (ws1 & Ht & Hws1).
  assert (Hbuild : forall sg sgn str2,
             skip_space t = sg ++ str2 -> sign_text sg sgn ->
             match long_from_string_base m str2 with
             | Some (z, p) => Some ((sgn * z)%Z, p)
             | None => None
             end = Some (v, "") ->
             literal_with Py_ISSPACE m t v).
  { intros sg sgn str2 Hsplit Hsg Hparse.
    destruct (long_from_string_base m str2) as [[z p]|] eqn:Hl; [|discriminate].
    injection Hparse as <- ->.
    destruct (long_from_string_base_sound _ _ _ _ Hl) as (b & rest & -> & Hb & Hrest & Hlim & ->).
    exists ws1, sg, sgn, b, rest. rewrite <- Hsplit.
    repeat split; auto using skip_space_empty_inv. }
  assert (Hend : forall (r : option (Z * string)),
             match r with Some (z, EmptyString) => Some z | _ => None end = Some v ->
             r = Some (v, "")).
  { intros [[z [|c p]]|]; try discriminate. congruence. }
  intros H; apply Hend in H; clear Hend.
  destruct (skip_space t) as [|c r] eqn:Hskip.
  - simpl in H. discriminate.
  - destruct (c =? "+")%char eqn:Hplus.
    + apply Ascii.eqb_eq in Hplus; subst c.
      apply (Hbuild "+" 1%Z r); [reflexivity | constructor | exact H].
    + destruct (c =? "-")%char eqn:Hminus.
      * apply Ascii.eqb_eq in Hminus; subst c.
        apply (Hbuild "-" (-1)%Z r); [reflexivity | constructor | exact H].
      * apply (Hbuild "" 1%Z (String c r)); [reflexivity | constructor | exact H].
Qed.

(** On a text made of transformable characters the first step of [int] is
    the character-wise map [tr1]. *)
Lemma transform_loop_smap s :
  all_chars transformable s = true -> transform_loop s = smap tr1 s.
Proof.
  induction s as [|c r IH]; simpl; [reflexivity|].
  intros H; apply andb_true_iff in H as [Hc Hr]. rewrite IH by assumption.
  change (tr1 c) with (if (ord c <? 127)%N then c else " "%char).
  destruct (ord c <? 127)%N eqn:Hlow; [reflexivity|].
  rewrite (transformable_step c Hc Hlow). reflexivity.
Qed.

Lemma ascii_smap s :
  all_chars transformable s = true -> is_ascii s = true -> smap tr1 s = s.
Proof.
  induction s as [|c r IH]; simpl; [reflexivity|].
  intros H Ha; apply andb_true_iff in H as [Hc Hr]; apply andb_true_iff in Ha as [Hca Hra].
  rewrite IH by assumption.
  change (tr1 c) with (if (ord c <? 127)%N then c else " "%char).
  rewrite (transformable_ascii c Hc Hca). reflexivity.
Qed.

Lemma transform_smap s :
  all_chars transformable s = true -> TransformDecimalAndSpaceToASCII s = smap tr1 s.
Proof.
  intros H. unfold TransformDecimalAndSpaceToASCII.
  destruct (is_ascii s) eqn:Ha.
  - symmetry; apply ascii_smap; assumption.
  - apply transform_loop_smap; assumption.
Qed.

Lemma literal_char_transformable c : is_literal_char c = true -> transformable c = true.
Proof. each_char c. Qed.

Lemma transform_loop_literal s :
  all_chars is_literal_char (transform_loop s) = true ->
  all_chars transformable s = true.
Proof.
  induction s as [|c r IH]; simpl; [reflexivity|].
  destruct (ord c <? 127)%N eqn:Hlow.
  - simpl. intros H; apply andb_true_iff in H as [_ Hr].
    rewrite (below_127_transformable c Hlow), IH by assumption. reflexivity.
  - destruct (Py_UNICODE_ISSPACE c) eqn:Hsp.
    + simpl. intros Hr. rewrite (transform_step_inv c Hlow Hsp), IH by assumption. reflexivity.
    + intros H; discriminate H.
Qed.

Lemma transform_literal s :
  all_chars is_literal_char (TransformDecimalAndSpaceToASCII s) = true ->
  all_chars transformable s = true.
Proof.
  unfold TransformDecimalAndSpaceToASCII. destruct (is_ascii s).
  - apply all_chars_impl, literal_char_transformable.
  - apply transform_loop_literal.
Qed.

Lemma sign_text_core sg sgn : sign_text sg sgn -> all_chars is_core sg = true.
Proof. destruct 1; reflexivity. Qed.

Lemma literal_chars m t v :
  literal_with Py_ISSPACE m t v -> all_chars is_literal_char t = true.
Proof.
  intros (ws1 & sg & sgn & b & ws2 & -> & Hws1 & Hws2 & Hsg & Hb & _).
  assert (Hs : forall s, all_chars Py_ISSPACE s = true -> all_chars is_literal_char s = true).
  { intros s; apply all_chars_impl. intros c Hc; unfold is_literal_char; rewrite Hc; reflexivity. }
  assert (Hc : forall s, all_chars is_core s = true -> all_chars is_literal_char s = true).
  { intros s; apply all_chars_impl. intros c Hc; unfold is_literal_char; rewrite Hc.
    apply orb_true_r. }
  rewrite !all_chars_app, (Hs _ Hws1), (Hs _ Hws2),
    (Hc _ (sign_text_core _ _ Hsg)), (Hc _ (digit_groups_core _ Hb)).
  reflexivity.
Qed.

Lemma smap_core x y : smap tr1 x = y -> all_chars is_core y = true -> x = y.
Proof.
  revert y; induction x as [|c r IH]; intros y <-; simpl; [reflexivity|].
  intros H; apply andb_true_iff in H as [Hc Hr].
  rewrite (tr1_core c Hc) at 1. f_equal. apply IH; auto.
Qed.

Lemma smap_core_id x : all_chars is_core x = true -> smap tr1 x = x.
Proof.
  induction x as [|c r IH]; simpl; [reflexivity|].
  intros H; apply andb_true_iff in H as [Hc Hr]. rewrite (core_tr1 c Hc), IH; auto.
Qed.

Lemma smap_space x :
  all_chars transformable x = true ->
  all_chars Py_ISSPACE (smap tr1 x) = true -> all_chars is_int_space x = true.
Proof.
  induction x as [|c r IH]; simpl; [reflexivity|].
  intros H H'; apply andb_true_iff in H as [Hc Hr]; apply andb_true_iff in H' as [Hc' Hr'].
  rewrite (tr1_space c Hc Hc'), IH; auto.
Qed.

Lemma int_space_smap x :
  all_chars is_int_space x = true -> all_chars Py_ISSPACE (smap tr1 x) = true.
Proof.
  induction x as [|c r IH]; simpl; [reflexivity|].
  intros H; apply andb_true_iff in H as [Hc Hr]. rewrite (int_space_tr1 c Hc), IH; auto.
Qed.

(** The literals of the parser, read back through the first step, are the
    literals with the wider whitespace. *)
Lemma transform_literal_iff m s v :
  literal_with Py_ISSPACE m (TransformDecimalAndSpaceToASCII s) v
  <-> literal_with is_int_space m s v.
Proof.
  split.
  - intros H. pose proof (transform_literal s (literal_chars _ _ _ H)) as Htr.
    rewrite (transform_smap s Htr) in H.
    destruct H as (ws1 & sg & sgn & b & ws2 & Heq & Hws1 & Hws2 & Hsg & Hb & Hlim & ->).
    destruct (smap_split _ _ _ _ Heq) as (x1 & s1 & -> & Hx1 & Heq1).
    destruct (smap_split _ _ _ _ Heq1) as (x2 & s2 & -> & Hx2 & Heq2).
    destruct (smap_split _ _ _ _ Heq2) as (x3 & x4 & -> & Hx3 & Hx4).
    rewrite !all_chars_app in Htr.
    apply andb_true_iff in Htr as [Ht1 Htr]. apply andb_true_iff in Htr as [Ht2 Htr].
    apply andb_true_iff in Htr as [Ht3 Ht4].
    apply smap_core in Hx2; [|eapply sign_text_core; eassumption].
    apply smap_core in Hx3; [|apply digit_groups_core; assumption].
    subst x2 x3. subst ws1 ws2.
    exists x1, sg, sgn, b, x4. repeat split; auto using smap_space.
  - intros (ws1 & sg & sgn & b & ws2 & -> & Hws1 & Hws2 & Hsg & Hb & Hlim & ->).
    assert (Htr : all_chars transformable (ws1 ++ sg ++ b ++ ws2) = true).
    { rewrite !all_chars_app.
      rewrite (all_chars_impl _ _ ws1 int_space_transformable Hws1),
        (all_chars_impl _ _ ws2 int_space_transformable Hws2),
        (all_chars_impl _ _ sg core_transformable (sign_text_core _ _ Hsg)),
        (all_chars_impl _ _ b core_transformable (digit_groups_core _ Hb)).
      reflexivity. }
    rewrite (transform_smap _ Htr), !smap_app,
      (smap_core_id sg (sign_text_core _ _ Hsg)),
      (smap_core_id b (digit_groups_core _ Hb)).
    exists (smap tr1 ws1), sg, sgn, b, (smap tr1 ws2).
    repeat split; auto using int_space_smap.
Qed.

(** [int] accepts exactly the literals, and returns their value. *)
Lemma int_iff_literal m s v : int_ m s = Some v <-> int_literal m s v.
Proof.
  unfold int_literal. rewrite <- transform_literal_iff.
  change (int_ m s) with (parse_all m (TransformDecimalAndSpaceToASCII s)).
  split; [apply parse_all_sound | apply parse_all_complete].
Qed.

(** ** The handlers in closed form *)

Lemma in_range_iff v : in_range v = true <-> (20 <= v <= 100)%Z.
Proof. unfold in_range. rewrite andb_true_iff, !Z.leb_le. reflexivity. Qed.

(** Unfolds the monad and the library calls, leaving the program's own
    tests in place. *)
Ltac run_monad :=
  cbv [bind ret raise try_except select_handler emit get_app get_world put_app of_sum
       glob_glob os_path_exists open_read subprocess_run_check
       messagebox_showerror messagebox_showwarning messagebox_showinfo
       master_quit print label_config py_int].

Lemma every_exc_is_Exception e : isinstance e [Exception] = true.
Proof. destruct e as [[] s o]; reflexivity. Qed.

Lemma validate_entry_run text w st :
  validate_entry text w st =
  match int_ (w_max_str_digits w) text with
  | Some v => if in_range v then (Return (Some v), st, [])
              else (Return None, st, warning_shown)
  | None => (Return None, st, warning_shown)
  end.
Proof.
  unfold validate_entry, in_range. run_monad.
  destruct (int_ (w_max_str_digits w) text) as [v|]; [|reflexivity].
  destruct ((20 <=? v)%Z && (v <=? 100)%Z); reflexivity.
Qed.

Lemma load_current_threshold_run w st :
  load_current_threshold w st
  = (Return tt, set_label (expected_label w st) st, expected_read_trace w st).
Proof.
  unfold load_current_threshold, expected_label, expected_read_trace, set_label.
  destruct st as [[[|a b]|] label text]; try reflexivity.
  run_monad. cbn [battery_path not_ current_value_label entry].
  destruct (w_exists w (String a b)); [|reflexivity].
  cbn [negb]. destruct (w_read w (String a b)) as [content|e]; [reflexivity|].
  destruct (isinstance e [OSError; PermissionError]); [reflexivity|].
  rewrite (every_exc_is_Exception e). reflexivity.
Qed.

Lemma set_new_threshold_run w st :
  set_new_threshold w st =
  match int_ (w_max_str_digits w) (entry st) with
  | Some v =>
      if in_range v then
        match battery_path st with
        | Some (String a b) =>
            (Return tt, fst (after_validation w st v (String a b)),
             snd (after_validation w st v (String a b)))
        | _ => (Return tt, st, no_path_error_shown)
        end
      else (Return tt, st, warning_shown)
  | None => (Return tt, st, warning_shown)
  end.
Proof.
  unfold set_new_threshold. run_monad. rewrite validate_entry_run.
  destruct (int_ (w_max_str_digits w) (entry st)) as [v|]; [|reflexivity].
  destruct (in_range v); [|reflexivity].
  destruct st as [[[|a b]|] label text]; try reflexivity.
  cbn [battery_path not_ app_nil_l List.app].
  unfold after_validation, write_failure_dialog.
  destruct (w_spawn w (command_for v (String a b))) as [cp|e].
  - destruct (returncode cp =? 0)%Z.
    + rewrite load_current_threshold_run. reflexivity.
    + reflexivity.
  - destruct (isinstance e [CalledProcessError]); [reflexivity|].
    destruct (isinstance e [FileNotFoundError]); [reflexivity|].
    rewrite (every_exc_is_Exception e). reflexivity.
Qed.

Lemma click_run text w st : click text w st = set_new_threshold w (with_entry text st).
Proof.
  unfold click. run_monad. fold (with_entry text st).
  destruct (set_new_threshold w (with_entry text st)) as [[r s] t]. reflexivity.
Qed.

Lemma after_validation_path w st v p :
  battery_path (fst (after_validation w st v p)) = battery_path st.
Proof.
  unfold after_validation. destruct (w_spawn w (command_for v p)) as [cp|e]; [|reflexivity].
  destruct (returncode cp =? 0)%Z; reflexivity.
Qed.

Lemma find_battery_path_run w st :
  find_battery_path w st =
  match w_glob w CHARGE_THRESHOLD_FILE_PATH with
  | inl [] =>
      (Return None, st,
       [Glob CHARGE_THRESHOLD_FILE_PATH; ShowError "Error" no_path_message; MasterQuit])
  | inl (first :: _) => (Return (Some first), st, [Glob CHARGE_THRESHOLD_FILE_PATH])
  | inr e =>
      (Return None, st,
       [Glob CHARGE_THRESHOLD_FILE_PATH;
        ShowError "Error" ("An error occurred while finding the battery path: " ++ exc_str e);
        MasterQuit])
  end.
Proof.
  unfold find_battery_path. run_monad.
  destruct (w_glob w CHARGE_THRESHOLD_FILE_PATH) as [[|first rest]|e]; try reflexivity.
  rewrite (every_exc_is_Exception e). reflexivity.
Qed.

Lemma Application_init_run w st :
  Application_init w st =
  let '(r, _, t) := find_battery_path w st in
  let p := match r with Return p => p | Raise _ => None end in
  (Return tt, set_label (expected_label w (created p)) (created p),
   (t ++ expected_read_trace w (created p))%list).
Proof.
  unfold Application_init, create_widgets. run_monad. rewrite find_battery_path_run.
  destruct (w_glob w CHARGE_THRESHOLD_FILE_PATH) as [[|first rest]|e];
    cbn [battery_path]; fold (created None); try fold (created (Some first));
    rewrite load_current_threshold_run; reflexivity.
Qed.

(** ** Validation of the entry *)

Lemma all_digits_groups ds :
  (String.length ds =? 0)%nat = false -> all_chars is_digit ds = true ->
  digit_groups ds /\ drop_underscores ds = ds.
Proof.
  induction ds as [|d r IH]; [discriminate|]. intros _ H.
  simpl in H. apply andb_true_iff in H as [Hd Hr].
  cbn [drop_underscores]. rewrite (digit_not_underscore d Hd).
  destruct r as [|d' r'].
  - split; [constructor; assumption | reflexivity].
  - destruct (IH eq_refl Hr) as [Hg Hdrop]. rewrite Hdrop.
    split; [apply dg_next; assumption | reflexivity].
Qed.

Lemma within_digit_limit_le m n n' :
  (n <= n')%nat -> within_digit_limit m n' -> within_digit_limit m n.
Proof. unfold within_digit_limit. lia. Qed.

(** Every text the pattern of the specification admits is a literal of
    [int], with the value the specification gives it. *)
Lemma spec_pattern_is_literal m s :
  matches_spec_pattern s = true -> within_digit_limit m (String.length s) ->
  int_literal m s (spec_value s).
Proof.
  unfold matches_spec_pattern, spec_value. intros H Hlim.
  apply andb_true_iff in H as [Hlen Hds]. apply negb_true_iff in Hlen.
  destruct s as [|c r]; [discriminate|].
  destruct (c =? "-")%char eqn:Hc.
  - apply Ascii.eqb_eq in Hc; subst c.
    destruct (all_digits_groups r Hlen Hds) as [Hg Hdrop].
    exists "", "-", (-1)%Z, r, "". rewrite Hdrop, app_empty_r.
    repeat split; auto using sign_minus; try lia.
    apply (within_digit_limit_le m _ _ (Nat.le_succ_diag_r _) Hlim).
  - destruct (all_digits_groups (String c r) Hlen Hds) as [Hg Hdrop].
    exists "", "", 1%Z, (String c r), "". rewrite Hdrop, app_empty_r.
    repeat split; auto using sign_none; lia.
Qed.

(** C1 (as amended).  The entry is let through with value [v] exactly when
    it is a literal of [int] (whitespace, an optional sign [+] or [-],
    digits with single underscores allowed between them, whitespace; not
    more digits than the interpreter's limit) whose value [v] lies in
    20..100; every other entry ends in the warning dialog and nothing
    else, in particular no write.  Every text that matches the pattern
    of the specification with a value in range is among those let
    through, as long as its length is within the digit limit. *)
Theorem entry_validation (w : world) (st : app) (text : string) :
  (forall v, validate_entry text w st = (Return (Some v), st, [])
             <-> valid_entry (w_max_str_digits w) text v)
  /\ ((forall v, ~ valid_entry (w_max_str_digits w) text v) ->
      validate_entry text w st = (Return None, st, warning_shown)
      /\ click text w st = (Return tt, with_entry text st, warning_shown))
  /\ (forall v, spec_validate text = Some v ->
                within_digit_limit (w_max_str_digits w) (String.length text) ->
                valid_entry (w_max_str_digits w) text v).
Proof.
  assert (Hrun : forall v, validate_entry text w st = (Return (Some v), st, [])
                           <-> int_ (w_max_str_digits w) text = Some v /\ in_range v = true).
  { intros v. rewrite validate_entry_run.
    destruct (int_ (w_max_str_digits w) text) as [z|]; [destruct (in_range z) eqn:Hr|].
    - split; [intros H; injection H as <-; auto | intros [H _]; congruence].
    - split; [discriminate | intros [H Hv]; congruence].
    - split; [discriminate | intros [H _]; discriminate]. }
  assert (Hvalid : forall v, valid_entry (w_max_str_digits w) text v
                             <-> int_ (w_max_str_digits w) text = Some v /\ in_range v = true).
  { intros v. unfold valid_entry. rewrite int_iff_literal, in_range_iff. reflexivity. }
  split; [|split].
  - intros v. rewrite Hrun, Hvalid. reflexivity.
  - intros Hnone.
    assert (Hno : match int_ (w_max_str_digits w) text with
                  | Some z => in_range z = false
                  | None => True
                  end).
    { destruct (int_ (w_max_str_digits w) text) as [z|] eqn:Hint; [|exact I].
      destruct (in_range z) eqn:Hr; [|reflexivity].
      exfalso. apply (Hnone z), Hvalid. auto. }
    rewrite click_run, set_new_threshold_run, validate_entry_run. cbn [with_entry entry].
    destruct (int_ (w_max_str_digits w) text) as [z|]; [rewrite Hno|]; split; reflexivity.
  - intros v H Hlim. unfold spec_validate in H.
    destruct (matches_spec_pattern text) eqn:Hm; [|discriminate].
    destruct ((20 <=? spec_value text)%Z && (spec_value text <=? 100)%Z) eqn:Hr; [|discriminate].
    injection H as <-. split; [apply spec_pattern_is_literal; assumption|].
    apply in_range_iff. exact Hr.
Qed.

(** C1, counterexample.  The entry [" 50 "] is let through with value 50,
    although the pattern of the specification does not match it. *)
Lemma padded_entry_breaks_pattern_claim :
  ~ pattern_claim (world_with [BAT0] (inl "60") done) ready " 50 ".
Proof.
  intros [Hcode _].
  assert (H : exists v, spec_validate " 50 " = Some v).
  { apply Hcode. exists 50%Z. reflexivity. }
  destruct H as [v H]. discriminate H.
Qed.

(** A sign [+] and an underscore between digits are let through too, and
    the examples of the specification come out as it says. *)
Example entry_examples :
  let w := world_with [BAT0] (inl "60") done in
  let run s := result_of (validate_entry s w ready) in
  run "+50" = Return (Some 50%Z) /\ run "5_0" = Return (Some 50%Z) /\
  spec_validate "+50" = None /\ spec_validate "5_0" = None /\
  run "100" = Return (Some 100%Z) /\ run "50" = Return (Some 50%Z) /\
  run "19" = Return None /\ run "101" = Return None /\ run "abc" = Return None /\
  run "-50" = Return None /\ run "" = Return None /\ run "5__0" = Return None.
Proof. repeat split. Qed.

(** ** Path resolution *)

(** C8.  Whenever the glob yields at least one match, path resolution
    returns the first one of the list as the glob gave it, whatever the
    rest of the list is, and that is the path the application keeps. *)
Theorem first_match_is_chosen (w : world) (st : app) (first : string) (rest : list string) :
  w_glob w CHARGE_THRESHOLD_FILE_PATH = inl (first :: rest) ->
  find_battery_path w st = (Return (Some first), st, [Glob CHARGE_THRESHOLD_FILE_PATH])
  /\ battery_path (state_of (Application_init w st)) = Some first.
Proof.
  intros Hglob. split.
  - rewrite find_battery_path_run, Hglob. reflexivity.
  - rewrite Application_init_run, find_battery_path_run, Hglob. reflexivity.
Qed.

Lemma first_match_is_chosen_two_batteries :
  find_battery_path (world_with [BAT1; BAT0] (inl "60") done) blank
  = (Return (Some BAT1), blank, [Glob CHARGE_THRESHOLD_FILE_PATH])
  /\ battery_path (state_of (Application_init (world_with [BAT1; BAT0] (inl "60") done) blank))
     = Some BAT1.
Proof.
  apply (first_match_is_chosen (world_with [BAT1; BAT0] (inl "60") done) blank BAT1 [BAT0]).
  reflexivity.
Defined.

Lemma read_never_quits w st : ~ In MasterQuit (expected_read_trace w st).
Proof.
  unfold expected_read_trace.
  destruct (battery_path st) as [[|a b]|]; [cbn; intuition congruence| |cbn; intuition congruence].
  destruct (w_exists w (String a b)); [|cbn; intuition congruence].
  destruct (w_read w (String a b)) as [content|e]; [cbn; intuition congruence|].
  destruct (isinstance e [OSError; PermissionError]); cbn; intuition congruence.
Qed.

Lemma quit_in_startup w st :
  In MasterQuit (trace_of (Application_init w st))
  <-> (forall first rest, w_glob w CHARGE_THRESHOLD_FILE_PATH <> inl (first :: rest)).
Proof.
  rewrite Application_init_run, find_battery_path_run.
  pose proof (read_never_quits w) as Hread.
  destruct (w_glob w CHARGE_THRESHOLD_FILE_PATH) as [[|first rest]|e];
    cbv beta iota zeta delta [trace_of snd]; rewrite in_app_iff.
  - split; [intros _ first rest; discriminate | intros _; left; simpl; auto].
  - split; [|intros H; exfalso; apply (H first rest); reflexivity].
    intros [H|H]; exfalso; [simpl in H; intuition congruence | apply (Hread _ H)].
  - split; [intros _ first rest; discriminate | intros _; left; simpl; auto].
Qed.








(** ** [strip], declaratively *)

Lemma lstrip_app_blank ws r :
  all_chars Py_UNICODE_ISSPACE ws = true -> lstrip (ws ++ r) = lstrip r.
Proof.
  induction ws as [|c ws IH]; simpl; [reflexivity|].
  intros H; apply andb_true_iff in H as [Hc Hws]. rewrite Hc; auto.
Qed.

Lemma rstrip_blank ws : all_chars Py_UNICODE_ISSPACE ws = true -> rstrip ws = "".
Proof.
  induction ws as [|c ws IH]; simpl; [reflexivity|].
  intros H; apply andb_true_iff in H as [Hc Hws]. rewrite (IH Hws), Hc. reflexivity.
Qed.

Lemma rstrip_app_blank s ws :
  all_chars Py_UNICODE_ISSPACE ws = true -> rstrip (s ++ ws) = rstrip s.
Proof.
  intros Hws. induction s as [|c r IH]; [apply rstrip_blank; assumption|].
  cbn [append rstrip]. rewrite IH. reflexivity.
Qed.

Lemma rstrip_last c r :
  Py_UNICODE_ISSPACE (last_char c r) = false -> rstrip (String c r) = String c r.
Proof.
  revert c; induction r as [|c' r' IH]; intros c H.
  - simpl in *. rewrite H. reflexivity.
  - cbn [last_char] in H. change (rstrip (String c (String c' r')))
      with (match rstrip (String c' r') with
            | EmptyString => if Py_UNICODE_ISSPACE c then EmptyString else String c EmptyString
            | r0 => String c r0
            end).
    rewrite (IH c' H). reflexivity.
Qed.

(** [strip] gives back the part between the whitespace: on a text that is
    whitespace, a trimmed value and whitespace again, it returns the
    value. *)
Lemma strip_decomposed ws1 value ws2 :
  all_chars Py_UNICODE_ISSPACE ws1 = true -> all_chars Py_UNICODE_ISSPACE ws2 = true ->
  trimmed value = true -> strip (ws1 ++ value ++ ws2) = value.
Proof.
  intros Hws1 Hws2 Hv. unfold strip. rewrite (lstrip_app_blank ws1 _ Hws1).
  destruct value as [|c r].
  - cbn [append]. rewrite <- (app_empty_r ws2), (lstrip_app_blank ws2 "" Hws2). reflexivity.
  - unfold trimmed in Hv. apply andb_true_iff in Hv as [Hc Hlast].
    apply negb_true_iff in Hc; apply negb_true_iff in Hlast.
    cbn [append lstrip]. rewrite Hc.
    change (String c (r ++ ws2)) with (String c r ++ ws2).
    rewrite (rstrip_app_blank _ ws2 Hws2). apply rstrip_last; assumption.
Qed.

Lemma lstrip_split s :
  exists ws, s = ws ++ lstrip s /\ all_chars Py_UNICODE_ISSPACE ws = true
             /\ match lstrip s with
                | EmptyString => True
                | String c _ => Py_UNICODE_ISSPACE c = false
                end.
Proof.
  induction s as [|c r (ws & Hr & Hws & Hhead)]; [exists ""; simpl; auto|].
  simpl. destruct (Py_UNICODE_ISSPACE c) eqn:Hc.
  - exists (String c ws). simpl. rewrite Hc, Hws, <- Hr. auto.
  - exists "". simpl. auto.
Qed.

Lemma rstrip_split s :
  exists ws, s = rstrip s ++ ws /\ all_chars Py_UNICODE_ISSPACE ws = true
             /\ match rstrip s with
                | EmptyString => True
                | String c r => Py_UNICODE_ISSPACE (last_char c r) = false
                                /\ exists r', s = String c r'
                end.
Proof.
  induction s as [|c r IH]; [exists ""; simpl; auto|].
  destruct IH as (ws & Hr & Hws & Hlast).
  cbn [rstrip]. destruct (rstrip r) as [|c' r'] eqn:Hrs.
  - simpl in Hr. subst ws. destruct (Py_UNICODE_ISSPACE c) eqn:Hc.
    + exists (String c r). simpl. rewrite Hc, Hws. auto.
    + exists r. simpl. repeat split; eauto.
  - exists ws. destruct Hlast as [Hlast _].
    split; [cbn [append]; f_equal; exact Hr|]. split; [assumption|].
    split; [exact Hlast | eauto].
Qed.

(** Every text is whitespace, a trimmed value and whitespace. *)
Lemma strip_decomposition s :
  exists ws1 value ws2,
    s = ws1 ++ value ++ ws2 /\ all_chars Py_UNICODE_ISSPACE ws1 = true
    /\ all_chars Py_UNICODE_ISSPACE ws2 = true /\ trimmed value = true.
Proof.
  destruct (lstrip_split s) as (ws1 & Hs & Hws1 & Hhead).
  destruct (rstrip_split (lstrip s)) as (ws2 & Ht & Hws2 & Hlast).
  exists ws1, (rstrip (lstrip s)), ws2. rewrite <- Ht, <- Hs.
  repeat split; auto.
  destruct (rstrip (lstrip s)) as [|c r]; [reflexivity|].
  destruct Hlast as [Hlast (r' & Hr')]. rewrite Hr' in Hhead.
  unfold trimmed. rewrite Hhead, Hlast. reflexivity.
Qed.

(** ** Reading the current value *)

(** C6.  The read returns normally in every state and whatever the
    filesystem does: it leaves one of four labels (the stripped content, Not
    Found, Read Error, Unknown Error), and an exception from opening or
    reading the file is turned into Read Error when it is an [OSError]
    and into Unknown Error otherwise. *)
Theorem read_is_total (w : world) (st : app) :
  exists label,
    load_current_threshold w st = (Return tt, set_label label st, expected_read_trace w st)
    /\ (label = "Current value: Not Found"
        \/ (exists content, label = "Current value: " ++ strip content ++ "%")
        \/ label = "Current value: Read Error"
        \/ label = "Current value: Unknown Error")
    /\ (forall p e, battery_path st = Some p -> not_ (Some p) = false ->
                    w_exists w p = true -> w_read w p = inr e ->
                    label = if isinstance e [OSError; PermissionError]
                            then "Current value: Read Error"
                            else "Current value: Unknown Error").
Proof.
  exists (expected_label w st). split; [apply load_current_threshold_run|]. split.
  - unfold expected_label.
    destruct (battery_path st) as [[|a b]|]; auto.
    destruct (w_exists w (String a b)); auto.
    destruct (w_read w (String a b)) as [content|e]; [right; left; eauto|].
    destruct (isinstance e [OSError; PermissionError]); auto.
  - intros p e Hp Hnot Hex Hread. unfold expected_label. rewrite Hp.
    destruct p as [|a b]; [discriminate|]. rewrite Hex, Hread. reflexivity.
Qed.

Lemma read_ok_label w st p content :
  battery_path st = Some p -> not_ (Some p) = false ->
  w_exists w p = true -> w_read w p = inl content ->
  expected_label w st = "Current value: " ++ strip content ++ "%".
Proof.
  intros Hp Hnot Hex Hread. unfold expected_label. rewrite Hp.
  destruct p as [|a b]; [discriminate|]. rewrite Hex, Hread. reflexivity.
Qed.

(** C7.  When the control file holds the text 80 followed by a line feed,
    the read strips it to 80 and the label becomes exactly
    "Current value: 80%". *)
Theorem read_80_then_display (w : world) (st : app) (p : string) :
  battery_path st = Some p -> not_ (Some p) = false ->
  w_exists w p = true -> w_read w p = inl ("80" ++ nl) ->
  strip ("80" ++ nl) = "80"
  /\ result_of (load_current_threshold w st) = Return tt
  /\ current_value_label (state_of (load_current_threshold w st)) = "Current value: 80%"
  /\ In (LabelConfig "Current value: 80%") (trace_of (load_current_threshold w st)).
Proof.
  intros Hp Hnot Hex Hread.
  rewrite load_current_threshold_run.
  unfold result_of, state_of, trace_of; cbn [fst snd set_label current_value_label].
  rewrite (read_ok_label w st p _ Hp Hnot Hex Hread).
  split; [reflexivity|]. split; [reflexivity|]. split; [reflexivity|].
  unfold expected_read_trace. rewrite Hp. destruct p as [|a b]; [discriminate|].
  rewrite Hex, Hread. right; right; left. reflexivity.
Qed.

Lemma read_80_then_display_BAT0 :
  strip ("80" ++ nl) = "80"
  /\ result_of (load_current_threshold (world_with [BAT0] (inl ("80" ++ nl)) done) ready)
     = Return tt
  /\ current_value_label
       (state_of (load_current_threshold (world_with [BAT0] (inl ("80" ++ nl)) done) ready))
     = "Current value: 80%"
  /\ In (LabelConfig "Current value: 80%")
        (trace_of (load_current_threshold (world_with [BAT0] (inl ("80" ++ nl)) done) ready)).
Proof.
  apply (read_80_then_display (world_with [BAT0] (inl ("80" ++ nl)) done) ready BAT0);
    reflexivity.
Defined.

(** C10.  Whatever text a successful read returns, the label is
    "Current value: ", the text without its surrounding whitespace, and a
    percent sign: for every way of writing the content as whitespace, a
    value with no whitespace at its ends, and whitespace, the label shows
    that value, and every content can be written so.  The value is not
    parsed as a number. *)
Theorem label_shows_stripped_content (w : world) (st : app) (p content : string) :
  battery_path st = Some p -> not_ (Some p) = false ->
  w_exists w p = true -> w_read w p = inl content ->
  (forall ws1 value ws2,
     content = ws1 ++ value ++ ws2 ->
     all_chars Py_UNICODE_ISSPACE ws1 = true -> all_chars Py_UNICODE_ISSPACE ws2 = true ->
     trimmed value = true ->
     load_current_threshold w st
     = (Return tt, mkApp (battery_path st) ("Current value: " ++ value ++ "%") (entry st),
        [PathExists p; OpenRead p; LabelConfig ("Current value: " ++ value ++ "%")]))
  /\ (exists ws1 value ws2,
        content = ws1 ++ value ++ ws2
        /\ all_chars Py_UNICODE_ISSPACE ws1 = true
        /\ all_chars Py_UNICODE_ISSPACE ws2 = true
        /\ trimmed value = true).
Proof.
  intros Hp Hnot Hex Hread. split; [|apply strip_decomposition].
  intros ws1 value ws2 Hcontent Hws1 Hws2 Hvalue.
  rewrite load_current_threshold_run, (read_ok_label w st p _ Hp Hnot Hex Hread).
  unfold expected_read_trace. rewrite Hp. destruct p as [|a b]; [discriminate|].
  rewrite Hex, Hread, Hcontent, (strip_decomposed ws1 value ws2 Hws1 Hws2 Hvalue).
  unfold set_label. rewrite Hp. reflexivity.
Qed.

Lemma label_shows_abc :
  load_current_threshold
    (world_with [BAT0] (inl (String "009" " abc" ++ String "013" (String "010" ""))) done) ready
  = (Return tt, mkApp (Some BAT0) "Current value: abc%" "",
     [PathExists BAT0; OpenRead BAT0; LabelConfig "Current value: abc%"]).
Proof.
  apply (proj1 (label_shows_stripped_content
                  (world_with [BAT0]
                     (inl (String "009" " abc" ++ String "013" (String "010" ""))) done)
                  ready BAT0 (String "009" " abc" ++ String "013" (String "010" ""))
                  eq_refl eq_refl eq_refl eq_refl)
               (String "009" " ") "abc" (String "013" (String "010" "")));
    reflexivity.
Defined.

(** Content that is not a number is shown as it is. *)
Example label_of_text_content :
  current_value_label
    (state_of (load_current_threshold
                 (world_with [BAT0] (inl (String "a" (String "b" (String "c" (String "010" "")))))
                    done) ready))
  = "Current value: abc%".
Proof. reflexivity. Qed.

(** ** Writing the new value *)

Lemma read_starts_no_process w st : filter is_subprocess (expected_read_trace w st) = [].
Proof.
  unfold expected_read_trace.
  destruct (battery_path st) as [[|a b]|]; try reflexivity.
  destruct (w_exists w (String a b)); try reflexivity.
  destruct (w_read w (String a b)) as [content|e]; try reflexivity.
  destruct (isinstance e [OSError; PermissionError]); reflexivity.
Qed.

Lemma write_failure_dialog_no_process e : is_subprocess (write_failure_dialog e) = false.
Proof.
  unfold write_failure_dialog.
  destruct (isinstance e [CalledProcessError]); [reflexivity|].
  destruct (isinstance e [FileNotFoundError]); reflexivity.
Qed.

Lemma after_validation_processes w st v p :
  filter is_subprocess (snd (after_validation w st v p)) = [SubprocessRun (command_for v p)].
Proof.
  unfold after_validation.
  destruct (w_spawn w (command_for v p)) as [cp|e];
    [destruct (returncode cp =? 0)%Z|]; cbn [snd filter is_subprocess];
    rewrite ?read_starts_no_process, ?write_failure_dialog_no_process; reflexivity.
Qed.

(** The method once the entry is valid and a path is there. *)
Lemma click_valid text w st v p :
  int_ (w_max_str_digits w) text = Some v -> (20 <= v <= 100)%Z ->
  battery_path st = Some p -> not_ (Some p) = false ->
  click text w st
  = (Return tt, fst (after_validation w (with_entry text st) v p),
     snd (after_validation w (with_entry text st) v p)).
Proof.
  intros Hint Hr Hp Hnot. apply in_range_iff in Hr.
  rewrite click_run, set_new_threshold_run. cbn [with_entry entry battery_path].
  rewrite Hint, Hr, Hp. destruct p as [|a b]; [discriminate|]. reflexivity.
Qed.

(** [str] of a value in range is its decimal numeral. *)
Lemma str_of_int_decimal v :
  (20 <= v <= 100)%Z ->
  all_chars is_digit (str_of_int v) = true /\ decimal (str_of_int v) 0 = v.
Proof.
  intros Hv.
  assert (Hall : forallb (fun n => let z := (20 + Z.of_nat n)%Z in
                                   all_chars is_digit (str_of_int z)
                                   && (decimal (str_of_int z) 0 =? z)%Z)
                         (seq 0 81) = true) by (vm_compute; reflexivity).
  rewrite forallb_forall in Hall.
  specialize (Hall (Z.to_nat (v - 20))).
  replace (20 + Z.of_nat (Z.to_nat (v - 20)))%Z with v in Hall by lia.
  cbv zeta in Hall. rewrite andb_true_iff, Z.eqb_eq in Hall.
  apply Hall, in_seq. lia.
Qed.

(** C3.  For a valid entry with value [v] and a path [p], the method starts
    exactly one child process, and its argument list is pkexec, /bin/bash,
    -c and the text "echo v > p" with [v] written in decimal. *)
Theorem one_command_per_write (w : world) (st : app) (text : string) (v : Z) (p : string) :
  int_ (w_max_str_digits w) text = Some v -> (20 <= v <= 100)%Z ->
  battery_path st = Some p -> not_ (Some p) = false ->
  filter is_subprocess (trace_of (click text w st))
  = [SubprocessRun ["pkexec"; "/bin/bash"; "-c"; "echo " ++ str_of_int v ++ " > " ++ p]]
  /\ hd_error (trace_of (click text w st))
     = Some (SubprocessRun ["pkexec"; "/bin/bash"; "-c"; "echo " ++ str_of_int v ++ " > " ++ p])
  /\ all_chars is_digit (str_of_int v) = true
  /\ decimal (str_of_int v) 0 = v.
Proof.
  intros Hint Hr Hp Hnot.
  rewrite (click_valid text w st v p Hint Hr Hp Hnot).
  unfold trace_of, after_validation; cbn [snd].
  fold (command_for v p).
  split; [|split; [|apply str_of_int_decimal; assumption]].
  - apply after_validation_processes.
  - destruct (w_spawn w (command_for v p)) as [cp|e];
      [destruct (returncode cp =? 0)%Z|]; reflexivity.
Qed.

Lemma one_command_per_write_85 :
  filter is_subprocess (trace_of (click "85" (world_with [BAT0] (inl "85") done) ready))
  = [SubprocessRun ["pkexec"; "/bin/bash"; "-c"; "echo " ++ str_of_int 85 ++ " > " ++ BAT0]]
  /\ hd_error (trace_of (click "85" (world_with [BAT0] (inl "85") done) ready))
     = Some (SubprocessRun
               ["pkexec"; "/bin/bash"; "-c"; "echo " ++ str_of_int 85 ++ " > " ++ BAT0])
  /\ all_chars is_digit (str_of_int 85) = true
  /\ decimal (str_of_int 85) 0 = 85%Z.
Proof.
  apply (one_command_per_write (world_with [BAT0] (inl "85") done) ready "85" 85 BAT0);
    [reflexivity | lia | reflexivity | reflexivity].
Defined.

(** C4.  When the child ends with a non-zero code and the standard error
    "Request dismissed", the method shows the "Execution Failed" dialog
    whose text carries that message as the reason, and does nothing more:
    no file is touched and the label stays as it was. *)
Theorem rejected_write_is_reported (w : world) (st : app) (text : string) (v : Z)
  (p : string) (cp : CompletedProcess) :
  int_ (w_max_str_digits w) text = Some v -> (20 <= v <= 100)%Z ->
  battery_path st = Some p -> not_ (Some p) = false ->
  w_spawn w (command_for v p) = inl cp ->
  returncode cp <> 0%Z -> stderr cp = "Request dismissed" ->
  click text w st
  = (Return tt, with_entry text st,
     [SubprocessRun (command_for v p);
      ShowError "Execution Failed"
        "Failed to set the new threshold.

Reason: Request dismissed

Please ensure you have administrative privileges and entered the correct password."])
  /\ filter is_file_access (trace_of (click text w st)) = []
  /\ current_value_label (state_of (click text w st)) = current_value_label st.
Proof.
  intros Hint Hr Hp Hnot Hspawn Hcode Herr.
  assert (Hclick : click text w st
                   = (Return tt, with_entry text st,
                      [SubprocessRun (command_for v p);
                       ShowError "Execution Failed" (rejected_message "Request dismissed")])).
  { rewrite (click_valid text w st v p Hint Hr Hp Hnot).
    unfold after_validation. rewrite Hspawn.
    apply Z.eqb_neq in Hcode. rewrite Hcode. cbn [fst snd].
    unfold write_failure_dialog, called_process_error, error_message_of.
    cbn [exc_stderr]. rewrite Herr. reflexivity. }
  rewrite Hclick. repeat split.
Qed.

Lemma rejected_write_is_reported_126 :
  let w := world_with [BAT0] (inl "60") (inl (mkCompleted 126 "" "Request dismissed")) in
  click "85" w ready
  = (Return tt, with_entry "85" ready,
     [SubprocessRun (command_for 85 BAT0);
      ShowError "Execution Failed"
        "Failed to set the new threshold.

Reason: Request dismissed

Please ensure you have administrative privileges and entered the correct password."])
  /\ filter is_file_access (trace_of (click "85" w ready)) = []
  /\ current_value_label (state_of (click "85" w ready)) = current_value_label ready.
Proof.
  apply (rejected_write_is_reported
           (world_with [BAT0] (inl "60") (inl (mkCompleted 126 "" "Request dismissed")))
           ready "85" 85 BAT0 (mkCompleted 126 "" "Request dismissed"));
    [reflexivity | lia | reflexivity | reflexivity | reflexivity | discriminate | reflexivity].
Defined.



(** ** The invariant of the button *)

Lemma click_keeps_path text w st :
  battery_path (state_of (click text w st)) = battery_path st.
Proof.
  rewrite click_run, set_new_threshold_run. unfold state_of.
  destruct (int_ _ _) as [v|]; [destruct (in_range v)|]; try reflexivity.
  destruct (battery_path (with_entry text st)) as [[|a b]|] eqn:Hp; try reflexivity.
  cbn [fst snd]. rewrite after_validation_path. reflexivity.
Qed.

Lemma click_process_origin text w st cmd :
  In (SubprocessRun cmd) (trace_of (click text w st)) ->
  exists v p, int_ (w_max_str_digits w) text = Some v /\ (20 <= v <= 100)%Z
              /\ battery_path st = Some p /\ cmd = command_for v p.
Proof.
  rewrite click_run, set_new_threshold_run. cbn [with_entry entry battery_path].
  destruct (int_ (w_max_str_digits w) text) as [v|];
    [destruct (in_range v) eqn:Hr|]; try (cbn; intuition congruence).
  destruct (battery_path st) as [[|a b]|]; try (cbn; intuition congruence).
  intros Hin. exists v, (String a b). apply in_range_iff in Hr.
  repeat split; try assumption; try lia.
  unfold trace_of in Hin; cbn [snd] in Hin.
  assert (Hfilter : In (SubprocessRun cmd)
                       (filter is_subprocess
                          (snd (after_validation w (with_entry text st) v (String a b)))))
    by (apply filter_In; split; [exact Hin | reflexivity]).
  rewrite after_validation_processes in Hfilter.
  destruct Hfilter as [H|[]]; congruence.
Qed.

Lemma dispatch_keeps_path clicks :
  forall st, battery_path (fst (dispatch clicks st)) = battery_path st.
Proof.
  induction clicks as [|[text w] rest IH]; intros st; [reflexivity|].
  cbn [dispatch]. pose proof (click_keeps_path text w st) as Hk.
  destruct (click text w st) as [[r st1] t1]. specialize (IH st1).
  destruct (dispatch rest st1) as [st2 t2]. cbn [fst snd state_of] in *. congruence.
Qed.

Lemma dispatch_process_origin clicks :
  forall st cmd, In (SubprocessRun cmd) (snd (dispatch clicks st)) ->
    exists text w v p,
      In (text, w) clicks /\ int_ (w_max_str_digits w) text = Some v
      /\ (20 <= v <= 100)%Z /\ battery_path st = Some p /\ cmd = command_for v p.
Proof.
  induction clicks as [|[text w] rest IH]; intros st cmd Hin; [destruct Hin|].
  cbn [dispatch] in Hin.
  pose proof (click_keeps_path text w st) as Hk.
  pose proof (click_process_origin text w st cmd) as Hone.
  destruct (click text w st) as [[r st1] t1]. specialize (IH st1 cmd).
  destruct (dispatch rest st1) as [st2 t2]. cbn [fst snd state_of trace_of] in *.
  apply in_app_iff in Hin as [Hin|Hin].
  - destruct (Hone Hin) as (v & p & H1 & H2 & H3 & H4).
    exists text, w, v, p. repeat split; auto; try lia. left; reflexivity.
  - destruct (IH Hin) as (tx & wx & v & p & H1 & H2 & H3 & H4 & H5).
    exists tx, wx, v, p. repeat split; auto; try lia; try congruence. right; assumption.
Qed.

(** C5.  In every state and for every press of the button: a child process
    in the trace comes from an entry that [int] parsed to a value in
    20..100 and from a path that is there, and it is the command for that
    value and path; an entry that does not parse to such a value ends in
    the warning dialog alone; a missing path ends in one dialog alone.
    The same holds along any sequence of presses, during which the path
    does not change. *)
Theorem write_only_when_valid (w : world) (st : app) (text : string) :
  (forall cmd, In (SubprocessRun cmd) (trace_of (click text w st)) ->
     exists v p, int_ (w_max_str_digits w) text = Some v /\ (20 <= v <= 100)%Z
                 /\ battery_path st = Some p /\ cmd = command_for v p)
  /\ ((forall v, int_ (w_max_str_digits w) text = Some v -> ~ (20 <= v <= 100)%Z) ->
      click text w st = (Return tt, with_entry text st, warning_shown))
  /\ (battery_path st = None ->
      click text w st = (Return tt, with_entry text st, warning_shown)
      \/ click text w st = (Return tt, with_entry text st, no_path_error_shown))
  /\ (forall clicks cmd, In (SubprocessRun cmd) (snd (dispatch clicks st)) ->
        battery_path (fst (dispatch clicks st)) = battery_path st
        /\ exists text' w' v p,
             In (text', w') clicks /\ int_ (w_max_str_digits w') text' = Some v
             /\ (20 <= v <= 100)%Z /\ battery_path st = Some p /\ cmd = command_for v p).
Proof.
  split; [apply click_process_origin|]. split; [|split].
  - intros Hbad. rewrite click_run, set_new_threshold_run. cbn [with_entry entry].
    destruct (int_ (w_max_str_digits w) text) as [v|] eqn:Hint; [|reflexivity].
    destruct (in_range v) eqn:Hr; [|reflexivity].
    exfalso. apply (Hbad v eq_refl). apply in_range_iff; assumption.
  - intros Hnone. rewrite click_run, set_new_threshold_run. cbn [with_entry entry battery_path].
    rewrite Hnone.
    destruct (int_ (w_max_str_digits w) text) as [v|]; [destruct (in_range v)|]; auto.
  - intros clicks cmd Hin. split; [apply dispatch_keeps_path|].
    apply dispatch_process_origin; assumption.
Qed.

(** ** One whole session *)

(** The path resolves to BAT0, the first read shows 60, the user enters 85,
    the write succeeds and the read after it shows 85. *)
Example end_to_end :
  let w0 := world_with [BAT0] (inl ("60" ++ nl)) done in
  let w1 := world_with [BAT0] (inl ("85" ++ nl)) done in
  let st0 := state_of (Application_init w0 blank) in
  st0 = mkApp (Some BAT0) "Current value: 60%" ""
  /\ dispatch [("85", w1)] st0
     = (mkApp (Some BAT0) "Current value: 85%" "85",
        [SubprocessRun ["pkexec"; "/bin/bash"; "-c"; "echo 85 > " ++ BAT0];
         ShowInfo "Success" "Battery charge threshold successfully set to 85%.";
         PathExists BAT0; OpenRead BAT0; LabelConfig "Current value: 85%"]).
Proof. split; reflexivity. Qed.

(** ** Further properties of path resolution and start-up *)

(** X1.  An exception raised while globbing does not leave path
    resolution: it is shown in an error dialog together with its text, the
    end of the main loop is asked for, and the result is [None], with the
    state untouched. *)
Theorem glob_exception_is_reported (w : world) (st : app) (e : exc) :
  w_glob w CHARGE_THRESHOLD_FILE_PATH = inr e ->
  find_battery_path w st
  = (Return None, st,
     [Glob CHARGE_THRESHOLD_FILE_PATH;
      ShowError "Error" ("An error occurred while finding the battery path: " ++ exc_str e);
      MasterQuit])
  /\ battery_path (state_of (Application_init w st)) = None
  /\ returns (Application_init w st) = true.
Proof.
  intros Hglob. split; [|split].
  - rewrite find_battery_path_run, Hglob. reflexivity.
  - rewrite Application_init_run, find_battery_path_run, Hglob. reflexivity.
  - rewrite Application_init_run, find_battery_path_run, Hglob. reflexivity.
Qed.

Lemma glob_exception_is_reported_oserror :
  find_battery_path (world_glob_raising (mkExc OSError "Input/output error" None)) blank
  = (Return None, blank,
     [Glob CHARGE_THRESHOLD_FILE_PATH;
      ShowError "Error" "An error occurred while finding the battery path: Input/output error";
      MasterQuit])
  /\ battery_path
       (state_of (Application_init
                    (world_glob_raising (mkExc OSError "Input/output error" None)) blank))
     = None
  /\ returns (Application_init
                (world_glob_raising (mkExc OSError "Input/output error" None)) blank) = true.
Proof.
  apply (glob_exception_is_reported
           (world_glob_raising (mkExc OSError "Input/output error" None)) blank
           (mkExc OSError "Input/output error" None)).
  reflexivity.
Defined.

(** X2.  Start-up with a match, an existing file and a successful read:
    the constructor keeps the first match, shows the content without its
    surrounding whitespace, leaves the entry empty, shows no dialog and
    does not ask for the end of the main loop, whatever the state was
    before. *)
Theorem startup_with_match (w : world) (st : app) (first : string) (rest : list string)
  (content ws1 value ws2 : string) :
  w_glob w CHARGE_THRESHOLD_FILE_PATH = inl (first :: rest) ->
  not_ (Some first) = false ->
  w_exists w first = true -> w_read w first = inl content ->
  content = ws1 ++ value ++ ws2 ->
  all_chars Py_UNICODE_ISSPACE ws1 = true -> all_chars Py_UNICODE_ISSPACE ws2 = true ->
  trimmed value = true ->
  Application_init w st
  = (Return tt,
     mkApp (Some first) ("Current value: " ++ value ++ "%") "",
     [Glob "/sys/class/power_supply/BAT*/charge_control_end_threshold";
      PathExists first; OpenRead first;
      LabelConfig ("Current value: " ++ value ++ "%")]).
Proof.
  intros Hglob Hnot Hex Hread Hcontent Hws1 Hws2 Hvalue.
  rewrite Application_init_run, find_battery_path_run, Hglob.
  cbv beta iota zeta.
  rewrite (read_ok_label w (created (Some first)) first content eq_refl Hnot Hex Hread).
  unfold expected_read_trace, created, set_label; cbn [battery_path entry].
  destruct first as [|a b]; [discriminate|]. rewrite Hex, Hread.
  rewrite Hcontent, (strip_decomposed ws1 value ws2 Hws1 Hws2 Hvalue). reflexivity.
Qed.

Lemma startup_with_match_BAT0 :
  Application_init
    (world_with [BAT0; BAT1] (inl (String "009" " 60 " ++ String "010" "")) done) ready
  = (Return tt, mkApp (Some BAT0) "Current value: 60%" "",
     [Glob "/sys/class/power_supply/BAT*/charge_control_end_threshold";
      PathExists BAT0; OpenRead BAT0; LabelConfig "Current value: 60%"]).
Proof.
  apply (startup_with_match
           (world_with [BAT0; BAT1] (inl (String "009" " 60 " ++ String "010" "")) done) ready
           BAT0 [BAT1] (String "009" " 60 " ++ String "010" "")
           (String "009" " ") "60" (String " " (String "010" "")));
    reflexivity.
Defined.

(** ** Further properties of the read *)

(** X3.  A path that is kept but does not exist gives the label
    "Current value: Not Found" without the file being opened; when no
    path is kept (or it is the empty text) the filesystem is not even
    asked whether it exists. *)
Theorem missing_file_is_not_opened (w : world) (st : app) :
  (not_ (battery_path st) = true ->
   load_current_threshold w st
   = (Return tt, set_label "Current value: Not Found" st,
      [LabelConfig "Current value: Not Found"]))
  /\ (forall p, battery_path st = Some p -> not_ (Some p) = false ->
                w_exists w p = false ->
                load_current_threshold w st
                = (Return tt, set_label "Current value: Not Found" st,
                   [PathExists p; LabelConfig "Current value: Not Found"])).
Proof.
  split.
  - intros Hnot. rewrite load_current_threshold_run.
    unfold expected_label, expected_read_trace.
    destruct (battery_path st) as [[|a b]|]; [reflexivity | discriminate | reflexivity].
  - intros p Hp Hnot Hex. rewrite load_current_threshold_run.
    unfold expected_label, expected_read_trace. rewrite Hp.
    destruct p as [|a b]; [discriminate|]. rewrite Hex. reflexivity.
Qed.

Lemma read_trace_quiet w st :
  filter is_notification (expected_read_trace w st) = []
  /\ filter is_label_config (expected_read_trace w st)
     = [LabelConfig (expected_label w st)].
Proof.
  unfold expected_read_trace, expected_label.
  destruct (battery_path st) as [[|a b]|]; try (split; reflexivity).
  destruct (w_exists w (String a b)); try (split; reflexivity).
  destruct (w_read w (String a b)) as [content|e]; try (split; reflexivity).
  destruct (isinstance e [OSError; PermissionError]); split; reflexivity.
Qed.

(** X4.  The read never shows a dialog, never starts a process and never
    asks for the end of the main loop; it sets the label exactly once and
    leaves the kept path and the entry as they are. *)
Theorem read_is_quiet (w : world) (st : app) :
  filter is_notification (trace_of (load_current_threshold w st)) = []
  /\ filter is_subprocess (trace_of (load_current_threshold w st)) = []
  /\ ~ In MasterQuit (trace_of (load_current_threshold w st))
  /\ filter is_label_config (trace_of (load_current_threshold w st))
     = [LabelConfig (current_value_label (state_of (load_current_threshold w st)))]
  /\ battery_path (state_of (load_current_threshold w st)) = battery_path st
  /\ entry (state_of (load_current_threshold w st)) = entry st.
Proof.
  rewrite load_current_threshold_run.
  unfold trace_of, state_of; cbn [fst snd set_label battery_path entry current_value_label].
  destruct (read_trace_quiet w st) as [Hn Hl].
  repeat split; auto using read_starts_no_process, read_never_quits.
Qed.

(** X5.  When opening or reading the file raises, the label is set first
    and the text of the exception is then printed: an [OSError] (also a
    [FileNotFoundError] for a file that vanished after the existence
    test) gives Read Error, any other exception gives Unknown Error. *)
Theorem read_failure_is_printed (w : world) (st : app) (p : string) (e : exc) :
  battery_path st = Some p -> not_ (Some p) = false ->
  w_exists w p = true -> w_read w p = inr e ->
  load_current_threshold w st
  = if issubclass (exc_cls e) OSError
    then (Return tt, set_label "Current value: Read Error" st,
          [PathExists p; OpenRead p; LabelConfig "Current value: Read Error";
           Print ("Error reading threshold value: " ++ exc_str e)])
    else (Return tt, set_label "Current value: Unknown Error" st,
          [PathExists p; OpenRead p; LabelConfig "Current value: Unknown Error";
           Print ("An unexpected error occurred: " ++ exc_str e)]).
Proof.
  intros Hp Hnot Hex Hread. rewrite load_current_threshold_run.
  unfold expected_label, expected_read_trace. rewrite Hp.
  destruct p as [|a b]; [discriminate|]. rewrite Hex, Hread.
  destruct e as [[] msg err]; reflexivity.
Qed.

Lemma read_failure_is_printed_vanished :
  load_current_threshold
    (world_with [BAT0] (inr (mkExc FileNotFoundError "[Errno 2] No such file or directory" None))
       done) ready
  = (Return tt, set_label "Current value: Read Error" ready,
     [PathExists BAT0; OpenRead BAT0; LabelConfig "Current value: Read Error";
      Print "Error reading threshold value: [Errno 2] No such file or directory"]).
Proof.
  apply (read_failure_is_printed
           (world_with [BAT0]
              (inr (mkExc FileNotFoundError "[Errno 2] No such file or directory" None)) done)
           ready BAT0 (mkExc FileNotFoundError "[Errno 2] No such file or directory" None));
    reflexivity.
Defined.

Lemma lstrip_blank s : all_chars Py_UNICODE_ISSPACE s = true -> lstrip s = "".
Proof.
  induction s as [|c r IH]; simpl; [reflexivity|].
  intros H; apply andb_true_iff in H as [Hc Hr]. rewrite Hc. auto.
Qed.

(** X6.  A control file that is empty or holds only whitespace is shown as
    "Current value: %": the read does not treat it as an error. *)
Theorem blank_file_shows_no_value (w : world) (st : app) (p content : string) :
  battery_path st = Some p -> not_ (Some p) = false ->
  w_exists w p = true -> w_read w p = inl content ->
  all_chars Py_UNICODE_ISSPACE content = true ->
  current_value_label (state_of (load_current_threshold w st)) = "Current value: %".
Proof.
  intros Hp Hnot Hex Hread Hblank.
  rewrite load_current_threshold_run.
  unfold state_of; cbn [fst snd set_label current_value_label].
  rewrite (read_ok_label w st p content Hp Hnot Hex Hread).
  unfold strip. rewrite (lstrip_blank content Hblank). reflexivity.
Qed.

Lemma blank_file_shows_no_value_newline :
  current_value_label (state_of (load_current_threshold (world_with [BAT0] (inl nl) done) ready))
  = "Current value: %".
Proof.
  apply (blank_file_shows_no_value (world_with [BAT0] (inl nl) done) ready BAT0 nl);
    reflexivity.
Defined.

(** ** Further properties of the write *)

(** X7.  After a child that ended with code 0 the method shows the success
    dialog, naming the parsed value and not the text typed, and then runs
    the read: the rest of the trace and the final state are those of
    [load_current_threshold] in the state with the entry typed. *)
Theorem successful_write_then_refresh (w : world) (st : app) (text : string) (v : Z)
  (p : string) (cp : CompletedProcess) :
  int_ (w_max_str_digits w) text = Some v -> (20 <= v <= 100)%Z ->
  battery_path st = Some p -> not_ (Some p) = false ->
  w_spawn w (command_for v p) = inl cp -> returncode cp = 0%Z ->
  click text w st
  = (Return tt, state_of (load_current_threshold w (with_entry text st)),
     (SubprocessRun (command_for v p)
      :: ShowInfo "Success"
           ("Battery charge threshold successfully set to " ++ str_of_int v ++ "%.")
      :: trace_of (load_current_threshold w (with_entry text st)))).
Proof.
  intros Hint Hr Hp Hnot Hspawn Hcode.
  rewrite (click_valid text w st v p Hint Hr Hp Hnot).
  unfold after_validation. rewrite Hspawn, Hcode.
  rewrite load_current_threshold_run. reflexivity.
Qed.

Lemma successful_write_then_refresh_spelled :
  click "+08_5" (world_with [BAT0] (inl ("85" ++ nl)) done) ready
  = (Return tt, mkApp (Some BAT0) "Current value: 85%" "+08_5",
     [SubprocessRun ["pkexec"; "/bin/bash"; "-c"; "echo 85 > " ++ BAT0];
      ShowInfo "Success" "Battery charge threshold successfully set to 85%.";
      PathExists BAT0; OpenRead BAT0; LabelConfig "Current value: 85%"]).
Proof.
  apply (successful_write_then_refresh (world_with [BAT0] (inl ("85" ++ nl)) done) ready
           "+08_5" 85 BAT0 (mkCompleted 0 "" ""));
    [reflexivity | lia | reflexivity | reflexivity | reflexivity | reflexivity].
Defined.

(** X8.  After a child that ended with a non-zero code the dialog
    "Execution Failed" names as the reason the captured standard error
    without its surrounding whitespace, or, when nothing was captured, the
    text "The command was rejected or failed."; the state is not
    touched. *)
Theorem failed_write_reason (w : world) (st : app) (text : string) (v : Z)
  (p : string) (cp : CompletedProcess) :
  int_ (w_max_str_digits w) text = Some v -> (20 <= v <= 100)%Z ->
  battery_path st = Some p -> not_ (Some p) = false ->
  w_spawn w (command_for v p) = inl cp -> returncode cp <> 0%Z ->
  (stderr cp = "" ->
   click text w st
   = (Return tt, with_entry text st,
      [SubprocessRun (command_for v p);
       ShowError "Execution Failed"
         "Failed to set the new threshold.

Reason: The command was rejected or failed.

Please ensure you have administrative privileges and entered the correct password."]))
  /\ (forall ws1 reason ws2,
        stderr cp <> "" -> stderr cp = ws1 ++ reason ++ ws2 ->
        all_chars Py_UNICODE_ISSPACE ws1 = true -> all_chars Py_UNICODE_ISSPACE ws2 = true ->
        trimmed reason = true ->
        click text w st
        = (Return tt, with_entry text st,
           [SubprocessRun (command_for v p);
            ShowError "Execution Failed"
              ("Failed to set the new threshold.

Reason: " ++ reason ++ "

Please ensure you have administrative privileges and entered the correct password.")])).
Proof.
  intros Hint Hr Hp Hnot Hspawn Hcode.
  assert (Hclick : click text w st
                   = (Return tt, with_entry text st,
                      [SubprocessRun (command_for v p);
                       ShowError "Execution Failed"
                         (rejected_message (error_message_of (called_process_error cp)))])).
  { rewrite (click_valid text w st v p Hint Hr Hp Hnot).
    unfold after_validation. rewrite Hspawn.
    apply Z.eqb_neq in Hcode. rewrite Hcode. reflexivity. }
  rewrite Hclick. unfold error_message_of, called_process_error. cbn [exc_stderr].
  split.
  - intros ->. reflexivity.
  - intros ws1 reason ws2 Hne Herr Hws1 Hws2 Hreason.
    destruct (stderr cp) as [|c r] eqn:Hs; [exfalso; apply Hne; reflexivity|].
    rewrite Herr, (strip_decomposed ws1 reason ws2 Hws1 Hws2 Hreason). reflexivity.
Qed.

Lemma failed_write_reason_not_authorized :
  click "85"
    (world_with [BAT0] (inl "60")
       (inl (mkCompleted 127 ""
               (String "010" " Not authorized " ++ String "010" ""))))
    ready
  = (Return tt, with_entry "85" ready,
     [SubprocessRun (command_for 85 BAT0);
      ShowError "Execution Failed"
        "Failed to set the new threshold.

Reason: Not authorized

Please ensure you have administrative privileges and entered the correct password."]).
Proof.
  apply (proj2 (failed_write_reason
                  (world_with [BAT0] (inl "60")
                     (inl (mkCompleted 127 ""
                             (String "010" " Not authorized " ++ String "010" ""))))
                  ready "85" 85 BAT0
                  (mkCompleted 127 "" (String "010" " Not authorized " ++ String "010" ""))
                  eq_refl ltac:(lia) eq_refl eq_refl eq_refl ltac:(discriminate))
               (String "010" " ") "Not authorized" (String " " (String "010" "")));
    [discriminate | reflexivity | reflexivity | reflexivity | reflexivity].
Defined.

(** X9.  An exception from starting the child that is neither a
    [CalledProcessError] nor a [FileNotFoundError] (a [PermissionError]
    for a pkexec that may not be executed, say) ends in the dialog
    "An Unexpected Error Occurred" with the text of the exception, and
    does not leave the method. *)
Theorem unexpected_spawn_error_is_reported (w : world) (st : app) (text : string) (v : Z)
  (p : string) (e : exc) :
  int_ (w_max_str_digits w) text = Some v -> (20 <= v <= 100)%Z ->
  battery_path st = Some p -> not_ (Some p) = false ->
  w_spawn w (command_for v p) = inr e ->
  issubclass (exc_cls e) CalledProcessError = false ->
  issubclass (exc_cls e) FileNotFoundError = false ->
  click text w st
  = (Return tt, with_entry text st,
     [SubprocessRun (command_for v p);
      ShowError "An Unexpected Error Occurred" ("Details: " ++ exc_str e)]).
Proof.
  intros Hint Hr Hp Hnot Hspawn Hcalled Hmissing.
  rewrite (click_valid text w st v p Hint Hr Hp Hnot).
  unfold after_validation. rewrite Hspawn. cbn [fst snd].
  unfold write_failure_dialog, isinstance. cbn [existsb].
  rewrite Hcalled, Hmissing. reflexivity.
Qed.

Lemma unexpected_spawn_error_is_reported_permission :
  click "85" (world_with [BAT0] (inl "60") pkexec_not_executable) ready
  = (Return tt, with_entry "85" ready,
     [SubprocessRun (command_for 85 BAT0);
      ShowError "An Unexpected Error Occurred"
        "Details: [Errno 13] Permission denied: 'pkexec'"]).
Proof.
  apply (unexpected_spawn_error_is_reported
           (world_with [BAT0] (inl "60") pkexec_not_executable) ready "85" 85 BAT0
           (mkExc PermissionError "[Errno 13] Permission denied: 'pkexec'" None));
    [reflexivity | lia | reflexivity | reflexivity | reflexivity | reflexivity | reflexivity].
Defined.

(** X10.  Validation comes before the test of the path.  With no path kept
    (or the empty text as path), a valid entry ends in the dialog
    "Cannot set threshold because battery path is not defined." and an
    invalid one in the warning; either way the state keeps everything
    but the entry. *)
Theorem validation_precedes_path_check (w : world) (st : app) (text : string) :
  not_ (battery_path st) = true ->
  (forall v, int_ (w_max_str_digits w) text = Some v -> (20 <= v <= 100)%Z ->
             click text w st = (Return tt, with_entry text st, no_path_error_shown))
  /\ ((forall v, int_ (w_max_str_digits w) text = Some v -> ~ (20 <= v <= 100)%Z) ->
      click text w st = (Return tt, with_entry text st, warning_shown)).
Proof.
  intros Hnot. split.
  - intros v Hint Hr. apply in_range_iff in Hr.
    rewrite click_run, set_new_threshold_run. cbn [with_entry entry battery_path].
    rewrite Hint, Hr.
    destruct (battery_path st) as [[|a b]|]; [reflexivity | discriminate | reflexivity].
  - intros Hbad. rewrite click_run, set_new_threshold_run. cbn [with_entry entry].
    destruct (int_ (w_max_str_digits w) text) as [v|] eqn:Hint; [|reflexivity].
    destruct (in_range v) eqn:Hr; [|reflexivity].
    exfalso. apply (Hbad v eq_refl). apply in_range_iff; assumption.
Qed.

Lemma validation_precedes_path_check_empty_path :
  click "50" (world_with [] (inl "60") done) (mkApp (Some "") "Current value: Not Found" "")
  = (Return tt, mkApp (Some "") "Current value: Not Found" "50", no_path_error_shown)
  /\ click "500" (world_with [] (inl "60") done) (mkApp (Some "") "Current value: Not Found" "")
     = (Return tt, mkApp (Some "") "Current value: Not Found" "500", warning_shown).
Proof.
  split.
  - apply (proj1 (validation_precedes_path_check (world_with [] (inl "60") done)
                    (mkApp (Some "") "Current value: Not Found" "") "50" eq_refl) 50%Z);
      [reflexivity | lia].
  - apply (proj2 (validation_precedes_path_check (world_with [] (inl "60") done)
                    (mkApp (Some "") "Current value: Not Found" "") "500" eq_refl)).
    intros v Hv. vm_compute in Hv. injection Hv as <-. lia.
Defined.

Lemma str_of_int_length v :
  (20 <= v <= 100)%Z -> (2 <= String.length (str_of_int v) <= 3)%nat.
Proof.
  intros Hv.
  assert (Hall : forallb (fun n => let k := String.length (str_of_int (20 + Z.of_nat n)) in
                                   (2 <=? k)%nat && (k <=? 3)%nat)
                         (seq 0 81) = true) by (vm_compute; reflexivity).
  rewrite forallb_forall in Hall.
  specialize (Hall (Z.to_nat (v - 20))).
  replace (20 + Z.of_nat (Z.to_nat (v - 20)))%Z with v in Hall by lia.
  cbv zeta in Hall. rewrite andb_true_iff, !Nat.leb_le in Hall.
  apply Hall, in_seq. lia.
Qed.

(** X11.  The text typed never reaches the shell.  Whatever the entry
    holds, a command the method starts is pkexec, /bin/bash, -c and
    "echo d > p", where [p] is the kept path and [d] is two or three
    decimal digits whose value is what [int] made of the entry. *)
Theorem entry_text_never_reaches_shell (w : world) (st : app) (text : string)
  (cmd : list string) :
  In (SubprocessRun cmd) (trace_of (click text w st)) ->
  exists d p,
    cmd = ["pkexec"; "/bin/bash"; "-c"; "echo " ++ d ++ " > " ++ p]
    /\ battery_path st = Some p
    /\ all_chars is_digit d = true
    /\ (2 <= String.length d <= 3)%nat
    /\ int_ (w_max_str_digits w) text = Some (decimal d 0).
Proof.
  intros Hin.
  destruct (click_process_origin text w st cmd Hin) as (v & p & Hint & Hr & Hp & ->).
  destruct (str_of_int_decimal v Hr) as [Hdigits Hvalue].
  exists (str_of_int v), p. rewrite Hvalue.
  repeat split; auto; apply (str_of_int_length v Hr).
Qed.

Lemma entry_text_never_reaches_shell_padded :
  exists d p,
    ["pkexec"; "/bin/bash"; "-c"; "echo 85 > " ++ BAT0]
    = ["pkexec"; "/bin/bash"; "-c"; "echo " ++ d ++ " > " ++ p]
    /\ battery_path ready = Some p
    /\ all_chars is_digit d = true
    /\ (2 <= String.length d <= 3)%nat
    /\ int_ (w_max_str_digits (world_with [BAT0] (inl "85") done)) " 0_85 "
       = Some (decimal d 0).
Proof.
  apply (entry_text_never_reaches_shell (world_with [BAT0] (inl "85") done) ready " 0_85 "
           ["pkexec"; "/bin/bash"; "-c"; "echo 85 > " ++ BAT0]).
  left. reflexivity.
Defined.

(** ** What a press of the button does and does not do *)

Lemma write_failure_dialog_is_dialog e : is_notification (write_failure_dialog e) = true.
Proof.
  unfold write_failure_dialog.
  destruct (isinstance e [CalledProcessError]); [reflexivity|].
  destruct (isinstance e [FileNotFoundError]); reflexivity.
Qed.

Lemma after_validation_dialogs w st v p : dialogs (snd (after_validation w st v p)) = 1%nat.
Proof.
  unfold dialogs, after_validation.
  destruct (w_spawn w (command_for v p)) as [cp|e];
    [destruct (returncode cp =? 0)%Z|]; cbn [snd filter is_notification];
    rewrite ?write_failure_dialog_is_dialog; try reflexivity.
  rewrite (proj1 (read_trace_quiet w st)). reflexivity.
Qed.

Lemma click_dialogs text w st : dialogs (trace_of (click text w st)) = 1%nat.
Proof.
  rewrite click_run, set_new_threshold_run.
  destruct (int_ _ _) as [v|]; [destruct (in_range v)|]; try reflexivity.
  destruct (battery_path (with_entry text st)) as [[|a b]|]; try reflexivity.
  apply after_validation_dialogs.
Qed.

(** X12.  Every press of the button shows exactly one dialog, whatever the
    entry, the state and the answers of the system; a session of [n]
    presses shows [n] dialogs. *)
Theorem one_dialog_per_press (w : world) (st : app) (text : string) :
  dialogs (trace_of (click text w st)) = 1%nat
  /\ (forall clicks st0, dialogs (snd (dispatch clicks st0)) = length clicks).
Proof.
  split; [apply click_dialogs|].
  induction clicks as [|[text' w'] rest IH]; intros st0; [reflexivity|].
  cbn [dispatch]. pose proof (click_dialogs text' w' st0) as Hone.
  destruct (click text' w' st0) as [[r st1] t1]. specialize (IH st1).
  destruct (dispatch rest st1) as [st2 t2]. cbn [fst snd trace_of length] in *.
  unfold dialogs in *. rewrite filter_app, length_app, Hone, IH. reflexivity.
Qed.

(** X13.  The label changes only through a successful write: when a press
    of the button leaves a label other than the one it found, the entry
    was valid, a path was kept, and the child ended with code 0. *)
Theorem label_changes_only_after_success (w : world) (st : app) (text : string) :
  current_value_label (state_of (click text w st)) <> current_value_label st ->
  exists v p cp,
    int_ (w_max_str_digits w) text = Some v /\ (20 <= v <= 100)%Z
    /\ battery_path st = Some p
    /\ w_spawn w (command_for v p) = inl cp /\ returncode cp = 0%Z.
Proof.
  rewrite click_run, set_new_threshold_run. unfold state_of.
  cbn [with_entry entry battery_path].
  destruct (int_ (w_max_str_digits w) text) as [v|];
    [destruct (in_range v) eqn:Hr|]; cbn [fst snd current_value_label];
    try (intros H; exfalso; apply H; reflexivity).
  destruct (battery_path st) as [[|a b]|]; cbn [fst snd current_value_label];
    try (intros H; exfalso; apply H; reflexivity).
  unfold after_validation.
  destruct (w_spawn w (command_for v (String a b))) as [cp|e] eqn:Hspawn;
    [destruct (returncode cp =? 0)%Z eqn:Hcode|]; cbn [fst snd current_value_label];
    try (intros H; exfalso; apply H; reflexivity).
  intros _. exists v, (String a b), cp. apply in_range_iff in Hr. apply Z.eqb_eq in Hcode.
  repeat split; auto; lia.
Qed.

Lemma label_changes_only_after_success_85 :
  exists v p cp,
    int_ (w_max_str_digits (world_with [BAT0] (inl "85") done)) "85" = Some v
    /\ (20 <= v <= 100)%Z
    /\ battery_path ready = Some p
    /\ w_spawn (world_with [BAT0] (inl "85") done) (command_for v p) = inl cp
    /\ returncode cp = 0%Z.
Proof.
  apply (label_changes_only_after_success (world_with [BAT0] (inl "85") done) ready "85").
  vm_compute. intros H. discriminate H.
Defined.

(** X14.  In a session the kept path never changes, whatever is typed and
    whatever the system answers; after a press the entry holds what was
    typed last. *)
Theorem session_keeps_path (clicks : list (string * world)) (st : app) :
  battery_path (fst (dispatch clicks st)) = battery_path st
  /\ (forall text w, entry (state_of (click text w st)) = text).
Proof.
  split; [apply dispatch_keeps_path|].
  intros text w. rewrite click_run, set_new_threshold_run. unfold state_of.
  destruct (int_ _ _) as [v|]; [destruct (in_range v)|]; try reflexivity.
  destruct (battery_path (with_entry text st)) as [[|a b]|]; try reflexivity.
  cbn [fst snd]. unfold after_validation.
  destruct (w_spawn w _) as [cp|e]; [destruct (returncode cp =? 0)%Z|]; reflexivity.
Qed.

Lemma digit_not_unicode_space c : is_digit c = true -> Py_UNICODE_ISSPACE c = false.
Proof. each_char c. Qed.

Lemma literal_has_digit m s v :
  int_literal m s v -> exists a d b, s = a ++ String d b /\ is_digit d = true.
Proof.
  intros (ws1 & sg & sgn & b & ws2 & -> & _ & _ & _ & Hb & _).
  destruct (digit_groups_head b Hb) as (d & r & -> & Hd).
  exists (ws1 ++ sg), d, (r ++ ws2). split; [|assumption].
  rewrite app_assoc_s. reflexivity.
Qed.

(** X15.  An entry that is empty or holds only whitespace is never let
    through: the press ends in the warning dialog and nothing else. *)
Theorem blank_entry_is_rejected (w : world) (st : app) (text : string) :
  all_chars Py_UNICODE_ISSPACE text = true ->
  click text w st = (Return tt, with_entry text st, warning_shown).
Proof.
  intros Hblank. rewrite click_run, set_new_threshold_run. cbn [with_entry entry].
  destruct (int_ (w_max_str_digits w) text) as [v|] eqn:Hint; [|reflexivity].
  exfalso. apply int_iff_literal in Hint.
  destruct (literal_has_digit _ _ _ Hint) as (a & d & b & -> & Hd).
  rewrite all_chars_app in Hblank. apply andb_true_iff in Hblank as [_ Hblank].
  simpl in Hblank. rewrite (digit_not_unicode_space d Hd) in Hblank. discriminate Hblank.
Qed.

Lemma blank_entry_is_rejected_empty :
  click "" (world_with [BAT0] (inl "60") done) ready
  = (Return tt, with_entry "" ready, warning_shown).
Proof.
  apply (blank_entry_is_rejected (world_with [BAT0] (inl "60") done) ready "").
  reflexivity.
Defined.

(** ** The constructor as a whole *)

Lemma value_label_is_not_loading x :
  "Current value: " ++ x ++ "%" <> "Current value: Loading...".
Proof.
  intros H. cbn [append] in H. repeat (injection H as H).
  do 10 (destruct x as [|? x]; [discriminate H|]; cbn [append] in H; injection H as _ H).
  destruct x; discriminate H.
Qed.

(** X16.  The constructor returns normally in every world.  It leaves the
    entry empty and always replaces the loading text of the label, and it
    keeps no path exactly when it has asked for the end of the main
    loop. *)
Theorem constructor_always_completes (w : world) (st : app) :
  returns (Application_init w st) = true
  /\ entry (state_of (Application_init w st)) = ""
  /\ current_value_label (state_of (Application_init w st)) <> "Current value: Loading..."
  /\ (battery_path (state_of (Application_init w st)) = None
      <-> In MasterQuit (trace_of (Application_init w st))).
Proof.
  split; [|split; [|split]].
  - rewrite Application_init_run, find_battery_path_run.
    destruct (w_glob w CHARGE_THRESHOLD_FILE_PATH) as [[|first rest]|e]; reflexivity.
  - rewrite Application_init_run, find_battery_path_run.
    destruct (w_glob w CHARGE_THRESHOLD_FILE_PATH) as [[|first rest]|e]; reflexivity.
  - rewrite Application_init_run, find_battery_path_run.
    assert (Hlabel : forall p, expected_label w (created p) <> "Current value: Loading...").
    { intros p. unfold expected_label, created; cbn [battery_path].
      destruct p as [[|a b]|]; try discriminate.
      destruct (w_exists w (String a b)); try discriminate.
      destruct (w_read w (String a b)) as [content|e]; [apply value_label_is_not_loading|].
      destruct (isinstance e [OSError; PermissionError]); discriminate. }
    destruct (w_glob w CHARGE_THRESHOLD_FILE_PATH) as [[|first rest]|e]; apply Hlabel.
  - rewrite quit_in_startup.
    rewrite Application_init_run, find_battery_path_run.
    destruct (w_glob w CHARGE_THRESHOLD_FILE_PATH) as [[|first rest]|e];
      unfold state_of; cbn [fst snd set_label created battery_path].
    + split; [intros _ f r; discriminate | reflexivity].
    + split; [discriminate | intros H; exfalso; apply (H first rest); reflexivity].
    + split; [intros _ f r; discriminate | reflexivity].
Qed.
